(** * lk-flood-watch: the data service ([src/services/dataService.js])

    A shallow embedding of the normalisation and risk-scoring pipeline of the
    flood dashboard, and the properties its specification states about it.

    JavaScript numbers are IEEE 754 binary64 values; they are modelled by
    Rocq's primitive floats, whose comparisons ([<=?], [<?], [=?]) are the
    comparisons of the language (false on NaN).  Strings are byte strings
    holding the UTF-8 encoding of the JavaScript string. *)

From Stdlib Require Import ZArith QArith Qround Qminmax List String Ascii Bool Lia.
From Stdlib Require Import Floats Uint63 DecimalString Permutation.
Import ListNotations.

Set Warnings "-inexact-float".

Local Open Scope string_scope.
Local Open Scope Z_scope.

(** ** JavaScript values and the built-ins the service calls *)

Module JS.

(** A call either completes with a value or throws. The service only ever
    catches with a handler that ignores the exception, so the thrown value
    itself is not recorded. *)
Inductive completion (A : Type) : Type :=
| Return (a : A)
| Throw.
Arguments Return {A} a.
Arguments Throw {A}.

Definition bind {A B} (c : completion A) (k : A -> completion B) : completion B :=
  match c with
  | Return a => k a
  | Throw => Throw
  end.

(** [try { c } catch (error) { h }] *)
Definition try_catch {A} (c : completion A) (h : completion A) : completion A :=
  match c with
  | Return a => Return a
  | Throw => h
  end.

Notation "x <- c ;; k" := (bind c (fun x => k))
  (at level 61, c at next level, right associativity).

(** [array.map(f)] where the callback may throw: the first exception aborts
    the traversal. *)
Fixpoint mapM {A B} (f : A -> completion B) (l : list A) : completion (list B) :=
  match l with
  | [] => Return []
  | a :: l' => b <- f a ;; bs <- mapM f l' ;; Return (b :: bs)
  end.

(** The values [JSON.parse] produces, and [undefined]. An object is the list
    of its own properties; a name is read at its first occurrence, so a list
    that names a property once is the object as parsed. *)
#[warnings="-register-all"]
Inductive value : Type :=
| VUndefined
| VNull
| VBool (b : bool)
| VNumber (x : float)
| VString (s : string)
| VArray (elements : list value)
| VObject (fields : list (string * value)).

(** *** Numbers *)

Definition is_zero (x : float) : bool := (x =? 0)%float.
Definition is_nan (x : float) : bool := negb (x =? x)%float.

(** [a >= b] and [a > b] on numbers. *)
Definition ge (a b : float) : bool := (b <=? a)%float.
Definition gt (a b : float) : bool := (b <? a)%float.

(** The binary64 value nearest to [(-1)^neg * m * 10^e10] (ties to even):
    the Number value of a decimal literal. *)
Definition decimal_to_float (neg : bool) (m : Z) (e10 : Z) : float :=
  match m with
  | Zpos p =>
      if 0 <=? e10
      then SF2Prim (binary_round prec emax neg (p * Z.to_pos (10 ^ e10)) 0)
      else SF2Prim (SFdiv prec emax (S754_finite neg p 0)
                          (S754_finite false (Z.to_pos (10 ^ (- e10))) 0))
  | _ => if neg then (-0)%float else 0%float
  end.

(** *** Strings *)

Definition string_of_Z (z : Z) : string :=
  match z with
  | Zpos p => NilEmpty.string_of_uint (Pos.to_uint p)
  | Z0 => "0"
  | Zneg p => "-" ++ NilEmpty.string_of_uint (Pos.to_uint p)
  end.

(** Number of decimal digits of a positive integer. *)
Definition ndigits (z : Z) : Z := Z.of_nat (String.length (string_of_Z z)).

Fixpoint zeros (n : nat) : string :=
  match n with
  | O => ""
  | S n' => "0" ++ zeros n'
  end.

Definition take (n : Z) (s : string) : string := substring 0 (Z.to_nat n) s.
Definition drop (n : Z) (s : string) : string :=
  substring (Z.to_nat n) (String.length s - Z.to_nat n) s.

(** [String.prototype.includes] *)
Fixpoint includes (s sub : string) : bool :=
  if prefix sub s then true
  else match s with
       | EmptyString => false
       | String _ s' => includes s' sub
       end.

(** Length in UTF-16 code units of a string given by its UTF-8 bytes: every
    byte that starts a character counts once, and once more when it starts a
    four-byte character (a surrogate pair). *)
Fixpoint utf16_length (s : string) : Z :=
  match s with
  | EmptyString => 0
  | String c s' =>
      let n := Z.of_nat (nat_of_ascii c) in
      (if (n <? 128) || (192 <=? n) then 1 else 0)
      + (if 240 <=? n then 1 else 0) + utf16_length s'
  end.

(** *** Number::toString (radix 10)

    For a finite positive [x = m * 2^e] the digits are those of the integer
    [s] with the fewest digits [k] such that [s * 10^(n-k)] converts back to
    [x]; among several the one nearest to [x]. *)

Section NumberToString.
Variables (x : float) (num den : Z).   (* x = num / den, num > 0, den > 0 *)

(** [n] with [10^(n-1) <= x < 10^n]. *)
Definition decimal_exponent : Z :=
  if den <=? num then ndigits (num / den) else 1 - ndigits (den / num).

Definition roundtrips (s : Z) (p : Z) : bool :=
  (decimal_to_float false s p =? x)%float.

(** The candidates with [k] digits: [(s, n)], or [None]. *)
Definition candidate (n k : Z) : option (Z * Z) :=
  let p := n - k in
  let '(a, b) := if 0 <=? p then (num, den * 10 ^ p) else (num * 10 ^ (- p), den) in
  let lo := a / b in
  let hi := lo + 1 in
  let ok_lo := roundtrips lo p in
  let ok_hi := roundtrips hi p in
  let hi_res := if hi =? 10 ^ k then (10 ^ (k - 1), n + 1) else (hi, n) in
  match ok_lo, ok_hi with
  | true, false => Some (lo, n)
  | false, true => Some hi_res
  | true, true =>
      match 2 * a ?= (2 * lo + 1) * b with
      | Lt => Some (lo, n)
      | Gt => Some hi_res
      | Eq => if Z.even lo then Some (lo, n) else Some hi_res
      end
  | false, false => None
  end.

Fixpoint shortest (n : Z) (fuel : nat) (k : Z) : Z * Z * Z :=
  match candidate n k, fuel with
  | Some (s, n'), _ => (s, n', k)
  | None, S fuel' => shortest n fuel' (k + 1)
  | None, O => (0, n, k)   (* not reached: 17 digits identify a binary64 value *)
  end.
End NumberToString.

Definition exponent_suffix (n : Z) : string :=
  "e" ++ (if 0 <=? n - 1 then "+" else "-") ++ string_of_Z (Z.abs (n - 1)).

Definition format_digits (s n k : Z) : string :=
  let ds := string_of_Z s in
  if (k <=? n) && (n <=? 21) then ds ++ zeros (Z.to_nat (n - k))
  else if (0 <? n) && (n <=? 21) then take n ds ++ "." ++ drop n ds
  else if (-6 <? n) && (n <=? 0) then "0." ++ zeros (Z.to_nat (- n)) ++ ds
  else if k =? 1 then ds ++ exponent_suffix n
  else take 1 ds ++ "." ++ drop 1 ds ++ exponent_suffix n.

Definition Number_toString (x : float) : string :=
  match Prim2SF x with
  | S754_nan => "NaN"
  | S754_zero _ => "0"
  | S754_infinity s => if s then "-Infinity" else "Infinity"
  | S754_finite sg m e =>
      let '(num, den) := if 0 <=? e then (Zpos m * 2 ^ e, 1) else (Zpos m, 2 ^ (- e)) in
      let ax := abs x in
      let '(s, n, k) := shortest ax num den (decimal_exponent num den) 16 1 in
      (if sg then "-" else "") ++ format_digits s n k
  end.

(** *** Truthiness and [||] *)

Definition truthy (v : value) : bool :=
  match v with
  | VUndefined | VNull => false
  | VBool b => b
  | VNumber x => negb (is_zero x || is_nan x)
  | VString s => negb (s =? "")%string
  | VArray _ | VObject _ => true
  end.

(** [a || b]: the right operand is evaluated, and may throw, only when the
    left one is falsy. *)
Definition or_else (a b : completion value) : completion value :=
  v <- a ;; if truthy v then Return v else b.

Infix "|||" := or_else (at level 50, left associativity).

(** *** Property reads on parsed JSON

    [lookup] reads an own property. The names the service reads on payload
    values are fixed, and none of them is inherited from the prototype of an
    object, array, string, number or boolean, except [length] on arrays and
    strings; reading a property of [null] or [undefined] throws. *)

Fixpoint lookup {A} (key : string) (fields : list (string * A)) : option A :=
  match fields with
  | [] => None
  | (k, a) :: rest => if (k =? key)%string then Some a else lookup key rest
  end.

Definition number_of_Z (z : Z) : float := of_uint63 (Uint63.of_Z z).

(** An own property of a parsed object, [undefined] when there is none. *)
Definition own (fields : list (string * value)) (key : string) : value :=
  match lookup key fields with
  | Some a => a
  | None => VUndefined
  end.

Definition getProp (v : value) (key : string) : completion value :=
  match v with
  | VUndefined | VNull => Throw
  | VObject fields => Return (own fields key)
  | VArray l =>
      Return (if (key =? "length")%string
              then VNumber (number_of_Z (Z.of_nat (List.length l))) else VUndefined)
  | VString s =>
      Return (if (key =? "length")%string
              then VNumber (number_of_Z (utf16_length s)) else VUndefined)
  | VBool _ | VNumber _ => Return VUndefined
  end.

Definition Array_isArray (v : value) : bool :=
  match v with VArray _ => true | _ => false end.

(** [v === 0] *)
Definition strict_equals_zero (v : value) : bool :=
  match v with VNumber x => is_zero x | _ => false end.

(** *** ToString

    An array is joined with commas, [null] and [undefined] elements giving
    the empty string. A plain object converts through [Object.prototype.toString]
    unless an own property shadows it: a property from JSON is never callable,
    and the conversion then ends in a TypeError. *)

Fixpoint ToString (v : value) : completion string :=
  match v with
  | VUndefined => Return "undefined"
  | VNull => Return "null"
  | VBool b => Return (if b then "true" else "false")
  | VNumber x => Return (Number_toString x)
  | VString s => Return s
  | VArray l =>
      let element (e : value) : completion string :=
        match e with
        | VUndefined | VNull => Return ""
        | _ => ToString e
        end in
      (fix join (l : list value) : completion string :=
         match l with
         | [] => Return ""
         | [e] => element e
         | e :: rest => a <- element e ;; b <- join rest ;; Return (a ++ "," ++ b)
         end) l
  | VObject fields =>
      match lookup "toString" fields with
      | Some _ => Throw
      | None => Return "[object Object]"
      end
  end.

(** *** parseFloat *)

Definition code (c : ascii) : Z := Z.of_nat (nat_of_ascii c).

Definition is_digit (c : ascii) : bool := (48 <=? code c) && (code c <=? 57).

(** Reads decimal digits: the value accumulated on [acc], how many were read,
    and the rest of the string. *)
Fixpoint digits (s : string) (acc cnt : Z) : Z * Z * string :=
  match s with
  | String c s' =>
      if is_digit c then digits s' (10 * acc + (code c - 48)) (cnt + 1)
      else (acc, cnt, s)
  | EmptyString => (acc, cnt, s)
  end.

(** Drops leading white space and line terminators (StrWhiteSpaceChar), the
    characters beyond ASCII by their UTF-8 encodings. *)
Fixpoint trim_start (s : string) : string :=
  match s with
  | String c1 r1 =>
      let a := code c1 in
      if (a =? 9) || (a =? 10) || (a =? 11) || (a =? 12) || (a =? 13) || (a =? 32)
      then trim_start r1
      else match r1 with
           | String c2 r2 =>
               let b := code c2 in
               if (a =? 194) && (b =? 160) then trim_start r2            (* U+00A0 *)
               else match r2 with
                    | String c3 r3 =>
                        let c := code c3 in
                        if ((a =? 225) && (b =? 154) && (c =? 128))       (* U+1680 *)
                           || ((a =? 226) && (b =? 128)
                               && (((128 <=? c) && (c <=? 138))           (* U+2000..U+200A *)
                                   || (c =? 168) || (c =? 169)            (* U+2028, U+2029 *)
                                   || (c =? 175)))                        (* U+202F *)
                           || ((a =? 226) && (b =? 129) && (c =? 159))    (* U+205F *)
                           || ((a =? 227) && (b =? 128) && (c =? 128))    (* U+3000 *)
                           || ((a =? 239) && (b =? 187) && (c =? 191))    (* U+FEFF *)
                        then trim_start r3
                        else s
                    | EmptyString => s
                    end
           | EmptyString => s
           end
  | EmptyString => s
  end.

Definition sign (s : string) : bool * string :=
  match s with
  | String "-" r => (true, r)
  | String "+" r => (false, r)
  | _ => (false, s)
  end.

(** The exponent part [e±ddd], or 0 when the text does not continue with one. *)
Definition exponent_part (s : string) : Z :=
  match s with
  | String c r =>
      if (code c =? 101) || (code c =? 69) then
        let '(neg, r') := sign r in
        let '(ev, n, _) := digits r' 0 0 in
        if n =? 0 then 0 else if neg then - ev else ev
      else 0
  | EmptyString => 0
  end.

(** The longest prefix of the trimmed string that is a StrDecimalLiteral,
    converted to a number; NaN when there is none. *)
Definition parseFloat_string (s : string) : float :=
  let '(neg, s0) := sign (trim_start s) in
  if prefix "Infinity" s0 then (if neg then neg_infinity else infinity)
  else
    let '(ip, ni, s1) := digits s0 0 0 in
    let '(m, nf, s2) :=
      match s1 with
      | String "." r => digits r ip 0
      | _ => (ip, 0, s1)
      end in
    if ni + nf =? 0 then nan
    else decimal_to_float neg m (exponent_part s2 - nf).

Definition parseFloat (v : value) : completion float :=
  s <- ToString v ;; Return (parseFloat_string s).

(** *** Property reads on the object literals of the module

    [TABLE[key]] on an object literal finds the own property, and otherwise
    looks along the prototype chain, where it finds the members of
    [Object.prototype]: functions, and the prototype object itself under
    [__proto__]. All are truthy and none has a property that the service
    reads from a table entry. *)

Inductive property (A : Type) : Type :=
| Own (a : A)
| Inherited
| Absent.
Arguments Own {A} a.
Arguments Inherited {A}.
Arguments Absent {A}.

Definition Object_prototype_keys : list string :=
  [ "constructor"; "hasOwnProperty"; "isPrototypeOf"; "propertyIsEnumerable";
    "toLocaleString"; "toString"; "valueOf"; "__proto__";
    "__defineGetter__"; "__defineSetter__"; "__lookupGetter__"; "__lookupSetter__" ].

Definition inherited (key : string) : bool :=
  existsb (String.eqb key) Object_prototype_keys.

Definition get {A} (table : list (string * A)) (key : string) : property A :=
  match lookup key table with
  | Some a => Own a
  | None => if inherited key then Inherited else Absent
  end.

Definition hasOwnProperty {A} (table : list (string * A)) (key : string) : bool :=
  match lookup key table with Some _ => true | None => false end.

(** [entry.f] where [entry] was read from a table: [None] is [undefined]. *)
Definition field {A B} (f : A -> B) (entry : property A) : option B :=
  match entry with
  | Own a => Some (f a)
  | Inherited | Absent => None
  end.

End JS.

(** ** The data service *)

Module DataService.
Import JS.
Local Open Scope float_scope.

(** Data sources *)
Definition DATA_SOURCES_irrigation : string :=
  "https://raw.githubusercontent.com/nuuuwan/lk_irrigation/main/data/rwlds/latest.json".
Definition DATA_SOURCES_dmc : string :=
  "https://raw.githubusercontent.com/nuuuwan/lk_dmc_vis/main/data/latest.json".

(** An entry of [CRITICAL_STATIONS]. *)
Module Critical.
Record t := { river : string; lat : float; lng : float; priority : Z }.
End Critical.

(** An entry of [ALERT_THRESHOLDS]: cutoffs in metres. *)
Module Cutoff.
Record t := { major : float; minor : float; alert : float }.
End Cutoff.

Definition CRITICAL_STATIONS : list (string * Critical.t) :=
  [ ("Nagalagam Street", {| Critical.river := "Kelani Ganga"; Critical.lat := 6.96027;
                            Critical.lng := 79.87858; Critical.priority := 1 |});
    ("Peradeniya", {| Critical.river := "Mahaweli Ganga"; Critical.lat := 7.26417;
                      Critical.lng := 80.59362; Critical.priority := 1 |});
    ("Moragaswewa", {| Critical.river := "Deduru Oya"; Critical.lat := 7.73187;
                       Critical.lng := 80.24296; Critical.priority := 1 |});
    ("Thanthirimale", {| Critical.river := "Malwathu Oya"; Critical.lat := 8.58076;
                         Critical.lng := 80.28401; Critical.priority := 1 |}) ].

Definition ALERT_THRESHOLDS : list (string * Cutoff.t) :=
  [ ("Nagalagam Street", {| Cutoff.major := 2.4; Cutoff.minor := 2.0; Cutoff.alert := 1.6 |});
    ("Peradeniya", {| Cutoff.major := 8.0; Cutoff.minor := 6.5; Cutoff.alert := 5.5 |});
    ("Moragaswewa", {| Cutoff.major := 7.5; Cutoff.minor := 6.0; Cutoff.alert := 5.0 |});
    ("Thanthirimale", {| Cutoff.major := 9.0; Cutoff.minor := 7.5; Cutoff.alert := 6.5 |});
    ("Hanwella", {| Cutoff.major := 9.0; Cutoff.minor := 7.5; Cutoff.alert := 6.5 |});
    ("Glencourse", {| Cutoff.major := 15.0; Cutoff.minor := 13.5; Cutoff.alert := 12.0 |});
    ("Rathnapura", {| Cutoff.major := 7.0; Cutoff.minor := 5.5; Cutoff.alert := 4.5 |});
    ("Kalawellawa", {| Cutoff.major := 8.0; Cutoff.minor := 6.5; Cutoff.alert := 5.5 |});
    ("default", {| Cutoff.major := 10.0; Cutoff.minor := 7.5; Cutoff.alert := 5.0 |}) ].

(** The four alert tiers and their labels, as the source spells them. *)
Inductive AlertTier : Type := Normal | Alert | MinorFlood | MajorFlood.

Definition MAJOR_FLOOD : string := "游댮 Major Flood".
Definition MINOR_FLOOD : string := "游 Minor Flood".
Definition ALERT : string := "游리 Alert".
Definition NORMAL : string := "游릭 Normal".

Definition label (t : AlertTier) : string :=
  match t with
  | MajorFlood => MAJOR_FLOOD
  | MinorFlood => MINOR_FLOOD
  | Alert => ALERT
  | Normal => NORMAL
  end.

(** Severity ranking: Normal < Alert < MinorFlood < MajorFlood. *)
Definition severity (t : AlertTier) : Z :=
  match t with
  | Normal => 0
  | Alert => 1
  | MinorFlood => 2
  | MajorFlood => 3
  end.

Record Coordinates := { lat : option float; lng : option float }.   (* [None]: undefined *)

Record StationReading := {
  station : value;
  river : value;
  level : option float;          (* [None]: null *)
  alert : string;
  rateOfRise : float;
  rising : bool;
  lastMeasured : value;
  coordinates : Coordinates;
  isCritical : bool
}.

(** *** The fetcher *)

(** What [fetch(url)] resolves to; [json] is the outcome of [response.json()],
    which throws on a body that is not JSON. *)
Record Response := { ok : bool; status : Z; json : completion value }.

(** The network seen by one invocation: the outcome of [fetch] for each URL
    (a transport failure throws). *)
Definition Network := string -> completion Response.

Definition fetchFromSource (fetch : Network) (url : string) : completion value :=
  try_catch
    (response <- fetch url ;;
     if negb (ok response) then Throw else json response)
    (Return VNull).

(** *** The normalizer *)

Definition getStationName (station : value) : completion value :=
  getProp station "station_name"
  ||| getProp station "station"
  ||| getProp station "name"
  ||| getProp station "Station"
  ||| Return (VString "Unknown Station").

(** [CRITICAL_STATIONS[name]?.river] *)
Definition critical_river (name : value) : completion value :=
  key <- ToString name ;;
  Return match field Critical.river (get CRITICAL_STATIONS key) with
         | Some r => VString r
         | None => VUndefined
         end.

Definition getRiverName (station : value) : completion value :=
  getProp station "river_basin"
  ||| getProp station "river"
  ||| getProp station "basin"
  ||| getProp station "River"
  ||| (name <- getStationName station ;; critical_river name)
  ||| Return (VString "Unknown River").

Definition getWaterLevel (station : value) : completion (option float) :=
  level <- getProp station "level_m"
           ||| getProp station "level"
           ||| getProp station "water_level"
           ||| getProp station "Level"
           ||| Return VNull ;;
  match level with
  | VNull => Return None
  | _ => x <- parseFloat level ;; Return (Some x)
  end.

Definition SRI_LANKA_CENTER : Coordinates := {| lat := Some 7.8731; lng := Some 80.7718 |}.

Definition getCoordinates (station stationName : value) : completion Coordinates :=
  latitude <- getProp station "latitude" ;;
  longitude <- getProp station "longitude" ;;
  if truthy latitude && truthy longitude then
    a <- parseFloat latitude ;;
    b <- parseFloat longitude ;;
    Return {| lat := Some a; lng := Some b |}
  else
    key <- ToString stationName ;;
    match get CRITICAL_STATIONS key with
    | Absent => Return SRI_LANKA_CENTER
    | entry => Return {| lat := field Critical.lat entry; lng := field Critical.lng entry |}
    end.

(** [now] is [new Date().toISOString()], the clock as the invocation reads it. *)
Definition getTimestamp (now : string) (station : value) : completion value :=
  getProp station "measured_at"
  ||| getProp station "timestamp"
  ||| getProp station "time"
  ||| getProp station "Timestamp"
  ||| Return (VString now).

Definition getRateOfRise (station : value) : completion float :=
  rate <- getProp station "rate_of_rise"
          ||| getProp station "rate"
          ||| getProp station "change_rate"
          ||| Return (VNumber 0) ;;
  parseFloat rate.

(** Operands of [level >= thresholds.major]: [null] converts to 0 and
    [undefined] to NaN. *)
Definition number_of_level (level : option float) : float :=
  match level with Some x => x | None => 0 end.
Definition number_of_field (f : option float) : float :=
  match f with Some x => x | None => nan end.

Definition determineAlertLevel (stationName : value) (level : option float)
  : completion string :=
  key <- ToString stationName ;;
  let thresholds :=
    match get ALERT_THRESHOLDS key with
    | Absent => get ALERT_THRESHOLDS "default"
    | found => found
    end in
  let l := number_of_level level in
  Return
    (if ge l (number_of_field (field Cutoff.major thresholds)) then MAJOR_FLOOD
     else if ge l (number_of_field (field Cutoff.minor thresholds)) then MINOR_FLOOD
     else if ge l (number_of_field (field Cutoff.alert thresholds)) then ALERT
     else NORMAL).

(** The callback of [stations.map] in [parseRiverData]. *)
Definition normalizeStation (now : string) (station : value) : completion StationReading :=
  stationName <- getStationName station ;;
  riverName <- getRiverName station ;;
  level <- getWaterLevel station ;;
  coordinates <- getCoordinates station stationName ;;
  timestamp <- getTimestamp now station ;;
  rateOfRise <- getRateOfRise station ;;
  alert <- determineAlertLevel stationName level ;;
  key <- ToString stationName ;;
  Return {| station := stationName;
            river := riverName;
            level := level;
            alert := alert;
            rateOfRise := rateOfRise;
            rising := gt rateOfRise 0.001;
            lastMeasured := timestamp;
            coordinates := coordinates;
            isCritical := hasOwnProperty CRITICAL_STATIONS key |}.

(** [station.level !== null] *)
Definition level_not_null (r : StationReading) : bool :=
  match level r with Some _ => true | None => false end.

Definition parseRiverData (now : string) (rawData : value)
  : completion (list StationReading) :=
  if negb (truthy rawData) then Return []
  else
    stations <-
      (if Array_isArray rawData then Return rawData
       else
         s <- getProp rawData "stations" ;;
         if truthy s then Return s
         else
           d <- getProp rawData "data" ;;
           if truthy d then Return d else Return (VArray [])) ;;
    match stations with
    | VArray l =>
        readings <- mapM (normalizeStation now) l ;;
        Return (filter level_not_null readings)
    | _ => Throw                   (* [stations.map] is not a function *)
    end.

(** Sample data for fallback and testing. *)
Definition getSampleData (now : string) : list StationReading :=
  [
    {| station := VString "Nagalagam Street";
       river := VString "Kelani Ganga";
       level := Some 2.56;
       alert := MAJOR_FLOOD;
       rateOfRise := 0.015;
       rising := true;
       lastMeasured := VString now;
       coordinates := {| lat := Some 6.96027; lng := Some 79.87858 |};
       isCritical := true |};
    {| station := VString "Peradeniya";
       river := VString "Mahaweli Ganga";
       level := Some 10.56;
       alert := MAJOR_FLOOD;
       rateOfRise := 0.595;
       rising := true;
       lastMeasured := VString now;
       coordinates := {| lat := Some 7.26417; lng := Some 80.59362 |};
       isCritical := true |};
    {| station := VString "Moragaswewa";
       river := VString "Deduru Oya";
       level := Some 8.33;
       alert := MAJOR_FLOOD;
       rateOfRise := 0.051;
       rising := true;
       lastMeasured := VString now;
       coordinates := {| lat := Some 7.73187; lng := Some 80.24296 |};
       isCritical := true |};
    {| station := VString "Thanthirimale";
       river := VString "Malwathu Oya";
       level := Some 10.64;
       alert := MAJOR_FLOOD;
       rateOfRise := -0.033;
       rising := false;
       lastMeasured := VString now;
       coordinates := {| lat := Some 8.58076; lng := Some 80.28401 |};
       isCritical := true |};
    {| station := VString "Hanwella";
       river := VString "Kelani Ganga";
       level := Some 9.69;
       alert := MINOR_FLOOD;
       rateOfRise := -0.087;
       rising := false;
       lastMeasured := VString now;
       coordinates := {| lat := Some 6.91049; lng := Some 80.08134 |};
       isCritical := false |};
    {| station := VString "Glencourse";
       river := VString "Kelani Ganga";
       level := Some 13.58;
       alert := NORMAL;
       rateOfRise := -0.190;
       rising := false;
       lastMeasured := VString now;
       coordinates := {| lat := Some 6.97574; lng := Some 80.18661 |};
       isCritical := false |};
    {| station := VString "Rathnapura";
       river := VString "Kalu Ganga";
       level := Some 5.82;
       alert := ALERT;
       rateOfRise := -0.059;
       rising := false;
       lastMeasured := VString now;
       coordinates := {| lat := Some 6.68986; lng := Some 80.38028 |};
       isCritical := false |};
    {| station := VString "Kalawellawa";
       river := VString "Kalu Ganga";
       level := Some 7.38;
       alert := MINOR_FLOOD;
       rateOfRise := -0.051;
       rising := false;
       lastMeasured := VString now;
       coordinates := {| lat := Some 6.63151; lng := Some 80.16073 |};
       isCritical := false |}
  ].

(** [!data || data.length === 0] *)
Definition unavailable (data : value) : completion bool :=
  if negb (truthy data) then Return true
  else len <- getProp data "length" ;; Return (strict_equals_zero len).

Definition fetchRiverData (fetch : Network) (now : string)
  : completion (list StationReading) :=
  try_catch
    (data <- fetchFromSource fetch DATA_SOURCES_irrigation ;;
     primary_down <- unavailable data ;;
     data <- (if primary_down then fetchFromSource fetch DATA_SOURCES_dmc
              else Return data) ;;
     all_down <- unavailable data ;;
     if all_down then Return (getSampleData now)
     else parseRiverData now data)
    (Return (getSampleData now)).

(** *** The risk scorer

    The per-station risk is an integer of at most 60 and an array has fewer
    than 2^32 elements, so both accumulators stay below 2^53 and their
    binary64 additions are exact: they are integers here. The quotient is
    taken in the rationals; rounding it to binary64 before [Math.min] and
    [Math.round] cannot change the result, since 100 and every half-integer
    below it are binary64 values spaced 2^-46 or less apart, while a quotient
    with a denominator below 2^33 that misses such a value misses it by more
    than 2^-34. *)

(** The local [risk] of the [forEach] callback. *)
Definition stationRisk (station : StationReading) : Z :=
  ((if includes (alert station) "Major" then 40
    else if includes (alert station) "Minor" then 25
    else if includes (alert station) "Alert" then 10
    else 0)
   +
   (if rising station && gt (rateOfRise station) 0.05 then 20
    else if rising station then 10
    else 0))%Z.

(** One iteration of [stations.forEach] on [(totalRisk, criticalStationRisk)]. *)
Definition accumulate (acc : Z * Z) (station : StationReading) : Z * Z :=
  let '(totalRisk, criticalStationRisk) := acc in
  let risk := stationRisk station in
  let criticalStationRisk :=
    if isCritical station then (criticalStationRisk + risk * 2)%Z
    else criticalStationRisk in
  ((totalRisk + risk)%Z, criticalStationRisk).

(** [totalRisk + criticalStationRisk] when the loop has ended. *)
Definition numerator (stations : list StationReading) : Z :=
  let '(totalRisk, criticalStationRisk) := fold_left accumulate stations (0, 0)%Z in
  (totalRisk + criticalStationRisk)%Z.

(** [Math.round]: the nearest integer, a tie going up. *)
Definition Math_round (q : Q) : Z := Qfloor (q + (1 # 2)).

Definition calculateFloodRisk (stations : list StationReading) : Z :=
  match stations with
  | [] => 0%Z
  | _ =>
      let overallRisk :=
        Qmin (inject_Z 100)
             (inject_Z (numerator stations)
              / inject_Z (Z.of_nat (List.length stations) + 4)) in
      Math_round overallRisk
  end.

End DataService.

(** ** Historical data ([fetchHistoricalData]) *)

Module History.
Import JS DataService.
Local Open Scope Z_scope.

Definition HISTORY_URL : string :=
  "https://api.github.com/repos/nuuuwan/lk_irrigation/contents/data/rwlds".

(** [String.prototype.endsWith]. On UTF-8 bytes, as an ASCII suffix never
    ends inside a longer character. *)
Definition endsWith (s suffix : string) : bool :=
  let n := String.length s in
  let k := String.length suffix in
  (k <=? n)%nat && (substring (n - k) k s =? suffix)%string.

(** [a === b]. Two arrays or two objects are equal only when they are the
    same object; a value parsed from a payload is never the object of the
    caller, so the comparison is false for them. *)
Definition strict_equals (a b : value) : bool :=
  match a, b with
  | VUndefined, VUndefined => true
  | VNull, VNull => true
  | VBool x, VBool y => Bool.eqb x y
  | VNumber x, VNumber y => (x =? y)%float
  | VString x, VString y => (x =? y)%string
  | _, _ => false
  end.

(** [array.filter(p)] where the callback may throw. *)
Fixpoint filterM {A} (p : A -> completion bool) (l : list A) : completion (list A) :=
  match l with
  | [] => Return []
  | a :: l' =>
      keep <- p a ;;
      rest <- filterM p l' ;;
      Return (if keep then a :: rest else rest)
  end.

(** An array index argument after [ToIntegerOrInfinity]. *)
Inductive integer_or_infinity : Type :=
| Integer (z : Z)
| PlusInfinity
| MinusInfinity.

(** The least integer at or above [(-1)^s * m * 2^e]. *)
Definition ceil_of_finite (s : bool) (m : positive) (e : Z) : Z :=
  if 0 <=? e then (if s then - (Zpos m * 2 ^ e) else Zpos m * 2 ^ e)
  else if s then - (Zpos m / 2 ^ (- e))
  else - ((- Zpos m) / 2 ^ (- e)).

(** [Math.ceil(x)] as an index argument: [Math.ceil] leaves NaN and the
    infinities as they are, and the conversion to an index takes NaN to 0. *)
Definition Math_ceil (x : float) : integer_or_infinity :=
  match Prim2SF x with
  | S754_nan => Integer 0
  | S754_zero _ => Integer 0
  | S754_infinity s => if s then MinusInfinity else PlusInfinity
  | S754_finite s m e => Integer (ceil_of_finite s m e)
  end.

(** The end index [slice(0, end)] uses on an array of [len] elements: a
    negative end counts from the end of the array, and the result is clamped
    to the array. *)
Definition slice_end (end_ : integer_or_infinity) (len : Z) : Z :=
  match end_ with
  | MinusInfinity => 0
  | PlusInfinity => len
  | Integer c => if c <? 0 then Z.max (len + c) 0 else Z.min c len
  end.

(** [array.slice(0, end)] *)
Definition slice {A} (end_ : integer_or_infinity) (l : list A) : list A :=
  firstn (Z.to_nat (slice_end end_ (Z.of_nat (List.length l)))) l.

(** [fetchFromSource(v)] on a value: [fetch] converts its argument to a
    string inside the [try] of [fetchFromSource]. *)
Definition fetchFromSource_value (fetch : Network) (v : value) : completion value :=
  match ToString v with
  | Return url => fetchFromSource fetch url
  | Throw => Return VNull
  end.

(** [f.name.endsWith('.json')]: only a string has the method. *)
Definition is_json_file (f : value) : completion bool :=
  name <- getProp f "name" ;;
  match name with
  | VString s => Return (endsWith s ".json")
  | _ => Throw
  end.

Section FetchHistoricalData.

(** The outcome of [sort((a, b) => b.name.localeCompare(a.name))] on the
    files whose names end in [.json]: the collation of [localeCompare]
    belongs to the host, so the sorted array is taken from it. *)
Variable sort_by_name_descending : list value -> list value.

Variables (fetch : Network) (now : string) (stationName : value).

(** The body of [for (const file of recentFiles)] on [historicalData]. *)
Definition visit (historicalData : list StationReading) (file : value)
  : completion (list StationReading) :=
  url <- getProp file "download_url" ;;
  data <- fetchFromSource_value fetch url ;;
  if truthy data then
    readings <- parseRiverData now data ;;
    match find (fun s => strict_equals (station s) stationName) readings with
    | Some found => Return (historicalData ++ [found])%list
    | None => Return historicalData
    end
  else Return historicalData.

Fixpoint for_of (files : list value) (historicalData : list StationReading)
  : completion (list StationReading) :=
  match files with
  | [] => Return historicalData
  | file :: rest =>
      historicalData' <- visit historicalData file ;;
      for_of rest historicalData'
  end.

(** [files.filter(...).sort(...).slice(0, Math.ceil(hours / 3))] *)
Definition recentFiles (files : value) (hours : float) : completion (list value) :=
  match files with
  | VArray l =>
      named <- filterM is_json_file l ;;
      Return (slice (Math_ceil (hours / 3)%float) (sort_by_name_descending named))
  | _ => Throw                      (* [files.filter] is not a function *)
  end.

(** The parameter [hours = 24]: [None] when the argument is omitted. *)
Definition hours_or_default (hours : option float) : float :=
  match hours with
  | Some h => h
  | None => 24%float
  end.

Definition fetchHistoricalData (hours : option float)
  : completion (list StationReading) :=
  let hours := hours_or_default hours in
  try_catch
    (response <- fetch HISTORY_URL ;;
     files <- json response ;;
     recent <- recentFiles files hours ;;
     for_of recent [])
    (Return []).

End FetchHistoricalData.

End History.

(** ** The dashboard ([src/App.jsx]): loading and the risk colour *)

Module Dashboard.
Import JS DataService.
Local Open Scope Z_scope.

(** The state that [loadRiverData] writes. *)
Record AppState := {
  riverData : list StationReading;
  loading : bool;
  lastUpdate : option string;        (* [None]: null *)
  error : option string;             (* [None]: null *)
  refreshing : bool;
  floodRisk : Z
}.

Definition initialState : AppState :=
  {| riverData := []; loading := true; lastUpdate := None; error := None;
     refreshing := false; floodRisk := 0 |}.

(** One run of [loadRiverData] from state [st]: the setters called before an
    exception keep their effect. *)
Definition loadRiverData (fetch : Network) (now : string) (showRefreshing : bool)
    (st : AppState) : AppState :=
  let st1 := {| riverData := riverData st; loading := loading st;
                lastUpdate := lastUpdate st; error := None;
                refreshing := if showRefreshing then true else refreshing st;
                floodRisk := floodRisk st |} in
  match fetchRiverData fetch now with
  | Return data =>
      {| riverData := data; loading := false; lastUpdate := Some now;
         error := None; refreshing := false;
         floodRisk := calculateFloodRisk data |}
  | Throw =>
      {| riverData := riverData st1; loading := false; lastUpdate := lastUpdate st1;
         error := Some "Failed to load river data. Using cached data.";
         refreshing := false; floodRisk := floodRisk st1 |}
  end.

Definition getRiskColor (risk : Z) : string :=
  if 75 <=? risk then "text-red-600"
  else if 50 <=? risk then "text-orange-600"
  else if 25 <=? risk then "text-yellow-600"
  else "text-green-600".

End Dashboard.

(** ** The vocabulary of the properties

    What the statements below are written with: sums over station lists, the
    cascade of cutoffs, conditions on raw stations and payloads, outcomes of
    the sources, and the concrete inputs of the examples. *)

Module Spec.
Import JS DataService.
Local Open Scope Z_scope.

(** *** Risk scorer *)

(** Sum of the per-station risks of a list. *)
Definition sum_risk (stations : list StationReading) : Z :=
  fold_right (fun s acc => stationRisk s + acc) 0 stations.

Definition critical (stations : list StationReading) : list StationReading :=
  filter isCritical stations.

Definition ordinary (stations : list StationReading) : list StationReading :=
  filter (fun s => negb (isCritical s)) stations.

(** The numerator as the specification words it: the contribution of a
    critical station counted a second time, so twice in all. *)
Definition numerator_double_weighted (stations : list StationReading) : Z :=
  sum_risk (ordinary stations) + 2 * sum_risk (critical stations).

(** A critical station in major flood whose level is not rising. *)
Definition critical_major : StationReading :=
  {| station := VString "Peradeniya";
     river := VString "Mahaweli Ganga";
     level := Some 8.5%float;
     alert := MAJOR_FLOOD;
     rateOfRise := 0%float;
     rising := false;
     lastMeasured := VString "2025-11-28T06:00:00.000Z";
     coordinates := {| lat := Some 7.26417%float; lng := Some 80.59362%float |};
     isCritical := true |}.

(** *** Alert classification *)

(** The cascade of comparisons of [determineAlertLevel] on three cutoffs. *)
Definition classify (l major minor alert : float) : AlertTier :=
  if ge l major then MajorFlood
  else if ge l minor then MinorFlood
  else if ge l alert then Alert
  else Normal.

(** [ALERT_THRESHOLDS[key] || ALERT_THRESHOLDS.default] *)
Definition thresholds_of (key : string) : property Cutoff.t :=
  match get ALERT_THRESHOLDS key with
  | Absent => get ALERT_THRESHOLDS "default"
  | found => found
  end.

Definition default_cutoffs : Cutoff.t :=
  {| Cutoff.major := 10.0; Cutoff.minor := 7.5; Cutoff.alert := 5.0 |}.

(** The stored alert of a reading is the one its level classifies to. *)
Definition alert_is_derived (r : StationReading) : bool :=
  match determineAlertLevel (station r) (level r) with
  | Return a => (a =? alert r)%string
  | Throw => false
  end.

(** *** Raw stations *)

(** No property [key] on the raw station. *)
Definition absent (st : value) (key : string) : Prop :=
  getProp st key = Return VUndefined.

Definition level_aliases : list string := ["level_m"; "level"; "water_level"; "Level"].

(** Some level alias of the raw station holds a truthy value. *)
Definition has_level (st : value) : bool :=
  existsb (fun k => match getProp st k with
                    | Return v => truthy v
                    | Throw => false
                    end) level_aliases.

Definition is_number (lv : option float) : bool :=
  match lv with Some _ => true | None => false end.

(** The property C2 states of an output list: every level is a number other
    than NaN. *)
Definition levels_parsable (out : list StationReading) : Prop :=
  Forall (fun r => exists x, level r = Some x /\ is_nan x = false) out.

(** Every property name the service reads on a payload value. *)
Definition payload_property_names : list string :=
  [ "station_name"; "station"; "name"; "Station";
    "river_basin"; "river"; "basin"; "River";
    "level_m"; "level"; "water_level"; "Level";
    "latitude"; "longitude";
    "measured_at"; "timestamp"; "time"; "Timestamp";
    "rate_of_rise"; "rate"; "change_rate";
    "stations"; "data"; "length" ].

(** *** Payloads *)

(** [raw] is one of the three payload shapes around the station list [l]. *)
Definition wraps (raw : value) (l : list value) : Prop :=
  raw = VArray l
  \/ raw = VObject [("stations", VArray l)]
  \/ raw = VObject [("data", VArray l)].

(** The three shapes C7 names, for some list of raw stations. *)
Definition named_shape (raw : value) : Prop := exists l, wraps raw l.

(** The property [key] of the payload, when it can be read, is falsy. *)
Definition falsy_prop (raw : value) (key : string) : Prop :=
  forall v, getProp raw key = Return v -> truthy v = false.

(** *** Sources *)

(** A source that gave nothing usable: the request failed, the status was
    not a success, the body was not JSON, or the result was null or an
    empty array. *)
Inductive SourceDown (fetch : Network) (url : string) : Prop :=
| transport_failure :
    fetch url = Throw -> SourceDown fetch url
| http_failure (r : Response) :
    fetch url = Return r -> ok r = false -> SourceDown fetch url
| malformed_body (r : Response) :
    fetch url = Return r -> ok r = true -> json r = Throw -> SourceDown fetch url
| empty_result (r : Response) (v : value) :
    fetch url = Return r -> ok r = true -> json r = Return v ->
    v = VNull \/ v = VArray [] -> SourceDown fetch url.

(** No network at all. *)
Definition offline : Network := fun _ => Throw.

(** *** Inputs of the examples *)

Definition clock : string := "2025-11-28T06:00:00.000Z".

(** A payload with one station whose level does not parse. *)
Definition unparseable_payload : value :=
  VArray [ VObject [ ("station", VString "Hanwella"); ("level", VString "n/a") ] ].

(** Two raw stations, the second without a level. *)
Definition two_stations : list value :=
  [ VObject [ ("station", VString "Peradeniya"); ("level", VNumber 8.25%float) ];
    VObject [ ("station", VString "Hanwella") ] ].

Definition Peradeniya_reading : StationReading :=
  {| station := VString "Peradeniya";
     river := VString "Mahaweli Ganga";
     level := Some 8.25%float;
     alert := MAJOR_FLOOD;
     rateOfRise := 0%float;
     rising := false;
     lastMeasured := VString clock;
     coordinates := {| lat := Some 7.26417%float; lng := Some 80.59362%float |};
     isCritical := true |}.

(** An object payload without stations. *)
Definition counter_payload : value := VObject [("count", VNumber 0%float)].

(** An object payload whose [stations] property is not an array. *)
Definition stations_is_a_number : value := VObject [("stations", VNumber 5%float)].

(** A raw station named after a member of [Object.prototype], without
    coordinates. *)
Definition station_named_constructor : value :=
  VObject [ ("station", VString "constructor"); ("level", VNumber 3%float) ].

(** A raw station named after a member of [Object.prototype], with a zero
    latitude. *)
Definition station_named_toString : value :=
  VObject [ ("name", VString "toString"); ("level", VNumber 3%float);
            ("latitude", VNumber 0%float); ("longitude", VNumber 80.1%float) ].

End Spec.

(** ** Further vocabulary: points, networks and inputs of the examples *)

Module Notions.
Import JS DataService History Dashboard Spec.
Local Open Scope Z_scope.

(** Severity points of a tier in the risk score. *)
Definition tier_points (t : AlertTier) : Z :=
  match t with
  | MajorFlood => 40
  | MinorFlood => 25
  | Alert => 10
  | Normal => 0
  end.

(** Points of a rate of rise in the risk score. *)
Definition rise_points (rate : float) : Z :=
  if gt rate 0.05 then 20 else if gt rate 0.001 then 10 else 0.

(** A station in no alert whose level is not rising. *)
Definition quiet_station : StationReading :=
  {| station := VString "Glencourse";
     river := VString "Kelani Ganga";
     level := Some 11.2%float;
     alert := NORMAL;
     rateOfRise := (-0.02)%float;
     rising := false;
     lastMeasured := VString clock;
     coordinates := {| lat := Some 6.97574%float; lng := Some 80.18661%float |};
     isCritical := false |}.

(** A station in minor flood, rising fast, that is not critical. *)
Definition rising_station : StationReading :=
  {| station := VString "Hanwella";
     river := VString "Kelani Ganga";
     level := Some 8.1%float;
     alert := MINOR_FLOOD;
     rateOfRise := 0.2%float;
     rising := true;
     lastMeasured := VString clock;
     coordinates := {| lat := Some 6.91049%float; lng := Some 80.08134%float |};
     isCritical := false |}.

(** A response with status 200 and the JSON body [v]. *)
Definition ok_response (v : value) : Response :=
  {| ok := true; status := 200; json := Return v |}.

(** A network that serves [v] at [url] and nothing else. *)
Definition serving (url : string) (v : value) : Network :=
  fun u => if (u =? url)%string then Return (ok_response v) else Throw.

(** A network where both sources answer, with different data. *)
Definition both_sources : Network :=
  fun u =>
    if (u =? DATA_SOURCES_irrigation)%string then Return (ok_response (VArray two_stations))
    else if (u =? DATA_SOURCES_dmc)%string then Return (ok_response unparseable_payload)
    else Throw.

(** The data the primary source is taken to have when it is usable: the
    request succeeds with a JSON body that is neither falsy nor of length 0. *)
Definition usable (fetch : Network) (url : string) (data : value) : Prop :=
  exists r, fetch url = Return r /\ ok r = true /\ json r = Return data
            /\ unavailable data = Return false.

(** A file of the directory listing. *)
Definition listed_file (name url : string) : value :=
  VObject [ ("name", VString name); ("download_url", VString url) ].

(** A payload with one reading of Hanwella. *)
Definition Hanwella_payload (level : float) : value :=
  VArray [ VObject [ ("station", VString "Hanwella"); ("level", VNumber level) ] ].

(** A network with a listing of two files: the first holds a reading of
    Hanwella, the second has a null entry among its stations. *)
Definition history_network : Network :=
  fun u =>
    if (u =? HISTORY_URL)%string then
      Return (ok_response (VArray [ listed_file "2025-11-28.json" "file://a";
                                    listed_file "2025-11-27.json" "file://b";
                                    listed_file "README.md" "file://c" ]))
    else if (u =? "file://a")%string then Return (ok_response (Hanwella_payload 8.1%float))
    else if (u =? "file://b")%string then Return (ok_response (Hanwella_payload 7.9%float))
    else Throw.

(** The same listing, where the second file has a null entry among its
    stations. *)
Definition broken_history_network : Network :=
  fun u =>
    if (u =? "file://b")%string then Return (ok_response (VArray [VNull]))
    else history_network u.

(** A directory listing from which no file can be taken: the request
    failed, the body was not JSON or not an array, or an entry of it has no
    string for a name. *)
Inductive ListingUnusable (fetch : Network) : Prop :=
| listing_not_fetched :
    fetch HISTORY_URL = Throw -> ListingUnusable fetch
| listing_not_json (r : Response) :
    fetch HISTORY_URL = Return r -> json r = Throw -> ListingUnusable fetch
| listing_not_an_array (r : Response) (v : value) :
    fetch HISTORY_URL = Return r -> json r = Return v ->
    Array_isArray v = false -> ListingUnusable fetch
| listing_entry_unnamed (r : Response) (l : list value) (f : value) :
    fetch HISTORY_URL = Return r -> json r = Return (VArray l) ->
    In f l -> (forall s, getProp f "name" <> Return (VString s)) ->
    ListingUnusable fetch.

(** The property [key] of a payload value as the service reads it,
    [undefined] where the read throws. *)
Definition read (v : value) (key : string) : value :=
  match getProp v key with
  | Return a => a
  | Throw => VUndefined
  end.

(** The first truthy value under a level alias of a raw station. *)
Definition level_value (st : value) : option value :=
  find truthy (map (read st) level_aliases).

Definition elements (v : value) : list value :=
  match v with
  | VArray l => l
  | _ => []
  end.

(** The raw stations of a payload: those of the array itself, else of its
    truthy [stations] property, else of its truthy [data] property; none for
    any other payload. *)
Definition stations_of (raw : value) : list value :=
  if negb (truthy raw) then []
  else if Array_isArray raw then elements raw
  else if truthy (read raw "stations") then elements (read raw "stations")
  else if truthy (read raw "data") then elements (read raw "data")
  else [].

(** The level of a reading is the conversion of the first truthy value
    under a level alias of its raw station. *)
Definition level_from (st : value) (r : StationReading) : Prop :=
  exists v x, level_value st = Some v /\ parseFloat v = Return x /\ level r = Some x.

(** A source that [fetchRiverData] passes over: the request failed, the
    status was not a success, the body was not JSON, or the parsed result is
    falsy (null, false, 0, the empty string) or has a [length] of 0 (the
    empty array, an object whose [length] property is 0). *)
Inductive Unavailable (fetch : Network) (url : string) : Prop :=
| not_reached :
    fetch url = Throw -> Unavailable fetch url
| bad_status (r : Response) :
    fetch url = Return r -> ok r = false -> Unavailable fetch url
| not_json (r : Response) :
    fetch url = Return r -> ok r = true -> json r = Throw -> Unavailable fetch url
| falsy_result (r : Response) (v : value) :
    fetch url = Return r -> ok r = true -> json r = Return v ->
    truthy v = false -> Unavailable fetch url
| zero_length (r : Response) (v : value) (x : float) :
    fetch url = Return r -> ok r = true -> json r = Return v ->
    truthy v = true -> getProp v "length" = Return (VNumber x) -> is_zero x = true ->
    Unavailable fetch url.

(** The data [fetchRiverData] goes on with: that of the primary source when
    it is usable, else that of the secondary source when the primary one is
    passed over and the secondary one is usable. *)
Definition kept (fetch : Network) (data : value) : Prop :=
  usable fetch DATA_SOURCES_irrigation data
  \/ (Unavailable fetch DATA_SOURCES_irrigation /\ usable fetch DATA_SOURCES_dmc data).

(** Both sources answer, each with an empty list of stations. *)
Definition empty_sources : Network :=
  fun _ => Return (ok_response (VObject [("stations", VArray [])])).

(** A sort that leaves the array as it is. *)
Definition unsorted : list value -> list value := fun l => l.

End Notions.

(** ** The built-ins on examples *)

Module BuiltinFacts.
Import JS DataService Spec.
Local Open Scope float_scope.

Example Number_toString_examples :
  map Number_toString
      [ 2.56; 0.1 + 0.2; 1e21; 123456789012345680000; 1e-7; 0.000001; 5e-324;
        1.7976931348623157e308; 0; -0; 100; -1.5; 80.7718; infinity; nan ]
  = [ "2.56"; "0.30000000000000004"; "1e+21"; "123456789012345680000"; "1e-7";
      "0.000001"; "5e-324"; "1.7976931348623157e+308"; "0"; "0"; "100"; "-1.5";
      "80.7718"; "Infinity"; "NaN" ].
Proof. vm_compute. reflexivity. Qed.

Example parseFloat_string_examples :
  map parseFloat_string
      [ "2.4"; " 3.5abc"; "n/a"; "."; ".5"; "5."; "5.e3"; "-.5e-1"; "-Infinity";
        "0x10"; "1e1000"; "-0"; ""; "1e+"; "12e+2x"; "  12.50 m"; "1,234" ]
  = [ 2.4; 3.5; nan; nan; 0.5; 5; 5000; -0.05; neg_infinity;
      0; infinity; -0; nan; 1; 1200; 12.5; 1 ].
Proof. vm_compute. reflexivity. Qed.

(** The constants of the tables are the values of the literals as the
    source writes them. *)
Example source_literals :
  map parseFloat_string [ "2.4"; "1.6"; "6.5"; "13.5"; "7.8731"; "80.7718"; "0.001"; "0.05";
                          "9.69"; "6.96027"; "79.87858"; "-0.033"; "-0.190" ]
  = [ 2.4; 1.6; 6.5; 13.5; 7.8731; 80.7718; 0.001; 0.05;
      9.69; 6.96027; 79.87858; -0.033; -0.190 ].
Proof. vm_compute. reflexivity. Qed.

Example parseFloat_examples :
  map parseFloat
      [ VNumber 2.56; VNumber 0; VNumber (-0); VString "7.5 m"; VBool true;
        VArray [VNumber 3.5; VNumber 2]; VArray [VNull; VNumber 3]; VObject [];
        VObject [("toString", VNull)] ]
  = [ Return 2.56; Return 0; Return 0; Return 7.5; Return nan;
      Return 3.5; Return nan; Return nan; Throw ].
Proof. vm_compute. reflexivity. Qed.

Example truthy_examples :
  map truthy [ VNumber 0; VNumber (-0); VNumber nan; VString ""; VNull; VUndefined;
               VString "0"; VArray []; VObject []; VNumber 1e-300 ]
  = [ false; false; false; false; false; false; true; true; true; true ].
Proof. vm_compute. reflexivity. Qed.

(** No property name the service reads on a payload value is a member of
    [Object.prototype]. *)
Example payload_property_names_not_inherited :
  forallb (fun k => negb (inherited k)) payload_property_names = true.
Proof. vm_compute. reflexivity. Qed.

(** The four labels are told apart by the substrings [calculateFloodRisk]
    looks for. *)
Example labels_and_substrings :
  map (fun t => (includes (label t) "Major", includes (label t) "Minor",
                 includes (label t) "Alert"))
      [ MajorFlood; MinorFlood; Alert; Normal ]
  = [ (true, false, false); (false, true, false); (false, false, true);
      (false, false, false) ].
Proof. vm_compute. reflexivity. Qed.

End BuiltinFacts.

(** ** Properties of the risk scorer *)

Module ScorerFacts.
Import JS DataService Spec.
Local Open Scope Z_scope.

Lemma stationRisk_range (s : StationReading) : 0 <= stationRisk s <= 60.
Proof.
  unfold stationRisk.
  repeat match goal with |- context [if ?b then _ else _] => destruct b end; lia.
Qed.

Lemma sum_risk_cons (s : StationReading) (l : list StationReading) :
  sum_risk (s :: l) = stationRisk s + sum_risk l.
Proof. reflexivity. Qed.

Lemma sum_risk_nonneg (l : list StationReading) : 0 <= sum_risk l.
Proof.
  induction l as [|s l IH]; [reflexivity|].
  rewrite sum_risk_cons. pose proof (stationRisk_range s); lia.
Qed.

Lemma sum_risk_split (l : list StationReading) :
  sum_risk l = sum_risk (ordinary l) + sum_risk (critical l).
Proof.
  unfold ordinary, critical.
  induction l as [|s l IH]; cbn [filter]; [reflexivity|].
  destruct (isCritical s); cbn [negb]; rewrite !sum_risk_cons; lia.
Qed.

Lemma accumulate_step (t c : Z) (s : StationReading) :
  accumulate (t, c) s
    = (t + stationRisk s, if isCritical s then c + stationRisk s * 2 else c).
Proof. reflexivity. Qed.

(** The loop invariant of [forEach]: what the two accumulators hold after
    the stations of [l], from any starting values. *)
Lemma accumulate_fold (l : list StationReading) (t c : Z) :
  fold_left accumulate l (t, c) = (t + sum_risk l, c + 2 * sum_risk (critical l)).
Proof.
  revert t c; unfold critical.
  induction l as [|s l IH]; intros t c; cbn [fold_left filter].
  - cbn. f_equal; lia.
  - rewrite accumulate_step, IH.
    destruct (isCritical s); rewrite !sum_risk_cons; f_equal; lia.
Qed.

Lemma numerator_nonneg (l : list StationReading) : 0 <= numerator l.
Proof.
  unfold numerator. rewrite accumulate_fold.
  pose proof (sum_risk_nonneg l). pose proof (sum_risk_nonneg (critical l)). lia.
Qed.

(** C1 (as amended). The separate critical-risk accumulator receives twice
    the contribution of every critical station, on top of the total that
    receives every contribution once: in the summed numerator a critical
    station's contribution counts exactly three times and any other station's
    exactly once. *)
Theorem critical_contribution_counts_three_times (stations : list StationReading) :
  fold_left accumulate stations (0, 0)
    = (sum_risk stations, 2 * sum_risk (critical stations))
  /\ numerator stations
       = sum_risk (ordinary stations) + 3 * sum_risk (critical stations).
Proof.
  pose proof (accumulate_fold stations 0 0) as H.
  split.
  - rewrite H. reflexivity.
  - unfold numerator. rewrite H.
    rewrite (sum_risk_split stations). lia.
Qed.

(** C1, as stated, fails: for a single critical station in major flood the
    numerator is 120, not twice its contribution of 40, and the score is 24
    where double weighting would give 16. *)
Lemma critical_contribution_not_doubled :
  numerator [critical_major] <> numerator_double_weighted [critical_major]
  /\ numerator [critical_major] = 120
  /\ numerator_double_weighted [critical_major] = 80
  /\ calculateFloodRisk [critical_major] = 24.
Proof.
  repeat split; try (vm_compute; congruence).
Qed.

(** The score of the sample data: 690 / 12 = 57.5, rounded up. *)
Example sample_score (now : string) :
  numerator (getSampleData now) = 690 /\ calculateFloodRisk (getSampleData now) = 58.
Proof. split; vm_compute; reflexivity. Qed.

Lemma Math_round_range (q : Q) :
  (0 <= q)%Q -> (q <= inject_Z 100)%Q -> 0 <= Math_round q <= 100.
Proof.
  intros Hlo Hhi. unfold Math_round. split.
  - change 0 with (Qfloor (0 + (1 # 2))).
    apply Qfloor_resp_le. apply Qplus_le_l. exact Hlo.
  - change 100 with (Qfloor (inject_Z 100 + (1 # 2))).
    apply Qfloor_resp_le. apply Qplus_le_l. exact Hhi.
Qed.

(** C5. The score is an integer between 0 and 100, and it is 0 for the empty
    list. *)
Theorem calculateFloodRisk_range (stations : list StationReading) :
  0 <= calculateFloodRisk stations <= 100 /\ calculateFloodRisk [] = 0.
Proof.
  split; [|reflexivity].
  destruct stations as [|s l]; [simpl; lia|].
  unfold calculateFloodRisk.
  set (n := numerator (s :: l)).
  set (d := Z.of_nat (List.length (s :: l)) + 4).
  assert (Hn : 0 <= n) by apply numerator_nonneg.
  assert (Hd : 0 < d) by (unfold d; lia).
  apply Math_round_range.
  - apply Q.min_glb.
    + discriminate.
    + apply Qle_shift_div_l.
      * unfold Qlt; simpl; lia.
      * rewrite Qmult_0_l. unfold Qle; simpl; lia.
  - apply Q.le_min_l.
Qed.

End ScorerFacts.

(** ** The order of binary64 values *)

Module FloatOrder.
Import JS.

Ltac order_cases :=
  repeat match goal with
         | |- context [Z.compare ?a ?b] => destruct (Z.compare_spec a b)
         | H : context [Z.compare ?a ?b] |- _ => destruct (Z.compare_spec a b)
         | |- context [Pos.compare ?a ?b] => destruct (Pos.compare_spec a b)
         | H : context [Pos.compare ?a ?b] |- _ => destruct (Pos.compare_spec a b)
         end.

Lemma SFleb_trans (a b c : spec_float) :
  SFleb a b = true -> SFleb b c = true -> SFleb a c = true.
Proof.
  unfold SFleb, SFcompare.
  destruct a as [sa|sa| |sa ma ea], b as [sb|sb| |sb mb eb], c as [sc|sc| |sc mc ec];
    try discriminate; try reflexivity;
    repeat match goal with s : bool |- _ => destruct s end;
    try discriminate; try reflexivity;
    change (Pos.compare_cont Eq) with Pos.compare;
    intros Hab Hbc;
    order_cases; simpl in *; try discriminate; try reflexivity; subst; lia.
Qed.

(** [<=] on numbers is transitive. *)
Lemma leb_trans (a b c : float) :
  (a <=? b)%float = true -> (b <=? c)%float = true -> (a <=? c)%float = true.
Proof. rewrite !FloatAxioms.leb_spec. apply SFleb_trans. Qed.

(** [t <= x] and [x <= y] give [t <= y]: a cutoff met at a level is met at
    every higher level. *)
Lemma ge_upward (t x y : float) :
  (x <=? y)%float = true -> ge x t = true -> ge y t = true.
Proof. unfold ge. intros Hxy Htx. exact (leb_trans t x y Htx Hxy). Qed.

End FloatOrder.

(** ** Properties of the alert classification *)

Module ClassifierFacts.
Import JS DataService Spec FloatOrder.
Local Open Scope Z_scope.

Lemma label_injective (a b : AlertTier) : label a = label b -> a = b.
Proof. destruct a, b; simpl; intros H; try reflexivity; discriminate H. Qed.

Lemma determineAlertLevel_classify (name : string) (level : option float) :
  determineAlertLevel (VString name) level
  = Return (label (classify (number_of_level level)
                     (number_of_field (field Cutoff.major (thresholds_of name)))
                     (number_of_field (field Cutoff.minor (thresholds_of name)))
                     (number_of_field (field Cutoff.alert (thresholds_of name))))).
Proof.
  unfold determineAlertLevel, classify, thresholds_of. cbn [ToString bind].
  repeat match goal with |- context [if ?b then _ else _] => destruct b end;
    reflexivity.
Qed.

Lemma classify_monotonic (x y major minor alert : float) :
  (x <=? y)%float = true ->
  severity (classify x major minor alert) <= severity (classify y major minor alert).
Proof.
  intros Hxy. unfold classify.
  destruct (ge x major) eqn:Hx1.
  { rewrite (ge_upward _ _ _ Hxy Hx1). simpl; lia. }
  destruct (ge x minor) eqn:Hx2.
  { rewrite (ge_upward _ _ _ Hxy Hx2). destruct (ge y major); simpl; lia. }
  destruct (ge x alert) eqn:Hx3.
  { rewrite (ge_upward _ _ _ Hxy Hx3).
    destruct (ge y major), (ge y minor); simpl; lia. }
  destruct (ge y major), (ge y minor), (ge y alert); simpl; lia.
Qed.

(** C8. At every station, a level [y] at or above a level [x] is classified
    into a tier at least as severe as that of [x], in the order
    Normal < Alert < MinorFlood < MajorFlood. *)
Theorem alert_monotonic_in_level (name : string) (x y : float) :
  (x <=? y)%float = true ->
  exists tx ty : AlertTier,
    determineAlertLevel (VString name) (Some x) = Return (label tx)
    /\ determineAlertLevel (VString name) (Some y) = Return (label ty)
    /\ severity tx <= severity ty.
Proof.
  intros Hxy. rewrite !determineAlertLevel_classify.
  eexists; eexists. split; [reflexivity|]. split; [reflexivity|].
  apply classify_monotonic. exact Hxy.
Qed.

Lemma alert_monotonic_in_level_witness :
  (6.5 <=? 8.0)%float = true
  /\ exists tx ty : AlertTier,
       determineAlertLevel (VString "Peradeniya") (Some 6.5%float) = Return (label tx)
       /\ determineAlertLevel (VString "Peradeniya") (Some 8.0%float) = Return (label ty)
       /\ severity tx <= severity ty.
Proof.
  split; [reflexivity|].
  apply (alert_monotonic_in_level "Peradeniya" 6.5%float 8.0%float). reflexivity.
Defined.

(** The classification of a station whose name is not a member of
    [Object.prototype]: the station's own cutoffs, else the default ones,
    compared in the order major, minor, alert with [>=]. *)
Lemma determineAlertLevel_own_or_default (name : string) (level : option float) :
  inherited name = false ->
  let t := match lookup name ALERT_THRESHOLDS with
           | Some t => t
           | None => default_cutoffs
           end in
  determineAlertLevel (VString name) level
  = Return (label (classify (number_of_level level)
                     (Cutoff.major t) (Cutoff.minor t) (Cutoff.alert t))).
Proof.
  intros Hname t. rewrite determineAlertLevel_classify.
  unfold thresholds_of, get, t. rewrite Hname.
  destruct (lookup name ALERT_THRESHOLDS); reflexivity.
Qed.

Lemma classify_first_cutoff_met (l major minor alert : float) :
  (ge l major = true -> classify l major minor alert = MajorFlood)
  /\ (ge l major = false -> ge l minor = true ->
      classify l major minor alert = MinorFlood)
  /\ (ge l major = false -> ge l minor = false -> ge l alert = true ->
      classify l major minor alert = Alert)
  /\ (ge l major = false -> ge l minor = false -> ge l alert = false ->
      classify l major minor alert = Normal).
Proof.
  unfold classify. repeat split; intros; repeat
    match goal with H : ge _ _ = _ |- _ => rewrite H; clear H end; reflexivity.
Qed.

(** A level equal to a cutoff is in that cutoff's tier. *)
Lemma Peradeniya_at_major_cutoff :
  determineAlertLevel (VString "Peradeniya") (Some 8.0%float) = Return (label MajorFlood).
Proof. reflexivity. Qed.

Lemma cutoff_inclusive (l minor alert : float) :
  is_nan l = false -> classify l l minor alert = MajorFlood.
Proof.
  unfold classify, ge, is_nan. intros H.
  rewrite FloatAxioms.leb_spec. rewrite FloatAxioms.eqb_spec in H.
  unfold SFleb. unfold SFeqb in H.
  destruct (SFcompare (Prim2SF l) (Prim2SF l)) as [[| |]|]; try discriminate; reflexivity.
Qed.

(** C4 fails at the station names that [Object.prototype] defines. For
    [constructor] the table read finds the inherited function, the default
    cutoffs are not used, no comparison with its missing cutoffs holds, and a
    level of 12 m, above the default major cutoff of 10 m, is classified
    Normal. *)
Theorem inherited_name_bypasses_default_cutoffs :
  get ALERT_THRESHOLDS "constructor" = Inherited
  /\ get ALERT_THRESHOLDS "default" = Own default_cutoffs
  /\ ge 12%float (Cutoff.major default_cutoffs) = true
  /\ determineAlertLevel (VString "constructor") (Some 12%float) = Return (label Normal)
  /\ hasOwnProperty ALERT_THRESHOLDS "constructor" = false.
Proof. repeat split. Qed.

End ClassifierFacts.

(** ** Properties of the normalizer *)

Module NormalizerFacts.
Import JS DataService Spec Notions ClassifierFacts.
Local Open Scope Z_scope.

Lemma bind_Return {A B} (c : completion A) (k : A -> completion B) (b : B) :
  bind c k = Return b -> exists a, c = Return a /\ k a = Return b.
Proof. destruct c as [a|]; simpl; [eauto | discriminate]. Qed.

(** Splits a hypothesis [x <- c ;; k = Return b] into its steps. *)
Ltac bind_inv H :=
  repeat match type of H with
         | bind ?c _ = Return _ =>
             let a := fresh "a" in
             let E := fresh "E" in
             apply bind_Return in H; destruct H as (a & E & H)
         end.

Ltac case_truthy :=
  repeat match goal with
         | |- context [truthy ?v] =>
             let T := fresh "T" in destruct (truthy v) eqn:T
         | H : context [truthy ?v] |- _ =>
             let T := fresh "T" in destruct (truthy v) eqn:T
         end.

(** Runs a [||] chain of values whose truthiness is known. *)
Ltac chain :=
  repeat (progress
            (cbn [or_else bind orb];
             repeat match goal with
                    | E : truthy ?v = _ |- context [truthy ?v] => rewrite E
                    end;
             change (truthy VUndefined) with false;
             change (truthy VNull) with false)).

Lemma mapM_Forall2 {A B} (f : A -> completion B) (l : list A) (rs : list B) :
  mapM f l = Return rs -> Forall2 (fun a r => f a = Return r) l rs.
Proof.
  revert rs. induction l as [|a l IH]; intros rs H; cbn [mapM] in H.
  - inversion H. constructor.
  - bind_inv H. inversion H; subst. constructor; auto.
Qed.

Lemma Forall2_In_r {A B} (R : A -> B -> Prop) (l : list A) (rs : list B) :
  Forall2 R l rs -> forall r, In r rs -> exists a, In a l /\ R a r.
Proof.
  induction 1 as [|a r0 l rs Hr _ IH]; intros r Hin; [contradiction|].
  destruct Hin as [<-|Hin].
  - exists a. split; [left; reflexivity | exact Hr].
  - destruct (IH r Hin) as (a' & Ha & HR). exists a'. split; [right|]; assumption.
Qed.

(** A station's reading carries the level [getWaterLevel] resolves and the
    classification of that level. *)
Lemma normalizeStation_fields (now : string) (st : value) (r : StationReading) :
  normalizeStation now st = Return r ->
  getStationName st = Return (station r)
  /\ getRiverName st = Return (river r)
  /\ getWaterLevel st = Return (level r)
  /\ getCoordinates st (station r) = Return (coordinates r)
  /\ getRateOfRise st = Return (rateOfRise r)
  /\ determineAlertLevel (station r) (level r) = Return (alert r).
Proof.
  unfold normalizeStation. intros H. bind_inv H.
  inversion H; subst; cbn. repeat split; assumption.
Qed.

(** *** Levels *)

Lemma convert_truthy_level (v : value) (lv : option float) :
  truthy v = true ->
  match v with
  | VNull => Return None
  | _ => x <- parseFloat v ;; Return (Some x)
  end = Return lv ->
  is_number lv = true.
Proof.
  intros T H.
  destruct v; try discriminate T;
    apply bind_Return in H; destruct H as (y & _ & H);
    inversion H; reflexivity.
Qed.

(** The [||] chain and the conversion of [getWaterLevel] on the four values
    read from a station. *)
Lemma level_chain (v1 v2 v3 v4 : value) (lv : option float) :
  (level <- Return v1 ||| Return v2 ||| Return v3 ||| Return v4 ||| Return VNull ;;
   match level with
   | VNull => Return None
   | _ => x <- parseFloat level ;; Return (Some x)
   end) = Return lv ->
  is_number lv = truthy v1 || (truthy v2 || (truthy v3 || (truthy v4 || false))).
Proof.
  destruct (truthy v1) eqn:T1; [chain; apply convert_truthy_level; exact T1 |].
  destruct (truthy v2) eqn:T2; [chain; apply convert_truthy_level; exact T2 |].
  destruct (truthy v3) eqn:T3; [chain; apply convert_truthy_level; exact T3 |].
  destruct (truthy v4) eqn:T4; [chain; apply convert_truthy_level; exact T4 |].
  chain. intros H. inversion H. reflexivity.
Qed.

Lemma getProp_not_nullish (st : value) (k k' : string) (v : value) :
  getProp st k = Return v -> exists v', getProp st k' = Return v'.
Proof. destruct st; cbn [getProp]; intros H; try discriminate; eauto. Qed.

Lemma getWaterLevel_null (st : value) (lv : option float) :
  getWaterLevel st = Return lv -> is_number lv = has_level st.
Proof.
  unfold getWaterLevel, has_level, level_aliases. cbn [existsb].
  destruct (getProp st "level_m") as [v1|] eqn:E1; [|discriminate].
  destruct (getProp_not_nullish st _ "level" _ E1) as [v2 ->].
  destruct (getProp_not_nullish st _ "water_level" _ E1) as [v3 ->].
  destruct (getProp_not_nullish st _ "Level" _ E1) as [v4 ->].
  apply level_chain.
Qed.

Lemma normalizeStation_keeps_level (now : string) (st : value) (r : StationReading) :
  normalizeStation now st = Return r -> level_not_null r = has_level st.
Proof.
  intros H. apply normalizeStation_fields in H.
  destruct H as (_ & _ & H & _).
  exact (getWaterLevel_null st (level r) H).
Qed.

Lemma mapM_filter_level (now : string) (l : list value) (rs : list StationReading) :
  mapM (normalizeStation now) l = Return rs ->
  mapM (normalizeStation now) (filter has_level l)
  = Return (filter level_not_null rs).
Proof.
  revert rs. induction l as [|st l IH]; intros rs H; cbn [mapM] in H.
  - inversion H. reflexivity.
  - bind_inv H. inversion H; subst. cbn [filter].
    rewrite (normalizeStation_keeps_level now st a E).
    destruct (has_level st); cbn [mapM].
    + rewrite E. cbn [bind]. rewrite (IH a0 E0). reflexivity.
    + exact (IH a0 E0).
Qed.

(** What [parseRiverData] maps over, whatever the shape of the payload. *)
Lemma parseRiverData_array (now : string) (l : list value) :
  parseRiverData now (VArray l)
  = (readings <- mapM (normalizeStation now) l ;;
     Return (filter level_not_null readings)).
Proof. reflexivity. Qed.

Lemma parseRiverData_Return (now : string) (raw : value) (out : list StationReading) :
  parseRiverData now raw = Return out ->
  exists l rs, mapM (normalizeStation now) l = Return rs
               /\ out = filter level_not_null rs.
Proof.
  unfold parseRiverData. intros H.
  destruct (negb (truthy raw)).
  - inversion H. exists [], []. split; reflexivity.
  - bind_inv H. destruct a; try discriminate.
    bind_inv H. inversion H; subst. eauto.
Qed.

Lemma convert_truthy_value (v : value) (lv : option float) :
  truthy v = true ->
  match v with
  | VNull => Return None
  | _ => x <- parseFloat v ;; Return (Some x)
  end = Return lv ->
  exists x, parseFloat v = Return x /\ lv = Some x.
Proof.
  intros T H.
  destruct v; try discriminate T;
    (apply bind_Return in H; destruct H as (y & E & H);
     inversion H; exists y; split; [exact E | reflexivity]).
Qed.

(** The [||] chain and the conversion of [getWaterLevel] on the four values
    read from a station: the first truthy one is converted. *)
Lemma level_chain_value (v1 v2 v3 v4 : value) (lv : option float) :
  (level <- Return v1 ||| Return v2 ||| Return v3 ||| Return v4 ||| Return VNull ;;
   match level with
   | VNull => Return None
   | _ => x <- parseFloat level ;; Return (Some x)
   end) = Return lv ->
  match find truthy [v1; v2; v3; v4] with
  | Some v => exists x, parseFloat v = Return x /\ lv = Some x
  | None => lv = None
  end.
Proof.
  cbn [find].
  destruct (truthy v1) eqn:T1; [chain; apply convert_truthy_value; exact T1 |].
  destruct (truthy v2) eqn:T2; [chain; apply convert_truthy_value; exact T2 |].
  destruct (truthy v3) eqn:T3; [chain; apply convert_truthy_value; exact T3 |].
  destruct (truthy v4) eqn:T4; [chain; apply convert_truthy_value; exact T4 |].
  chain. intros H. inversion H. reflexivity.
Qed.

Lemma getWaterLevel_value (st : value) (lv : option float) :
  getWaterLevel st = Return lv ->
  match level_value st with
  | Some v => exists x, parseFloat v = Return x /\ lv = Some x
  | None => lv = None
  end.
Proof.
  unfold getWaterLevel, level_value, level_aliases, read. cbn [map].
  destruct (getProp st "level_m") as [v1|] eqn:E1; [|discriminate].
  destruct (getProp_not_nullish st _ "level" _ E1) as [v2 ->].
  destruct (getProp_not_nullish st _ "water_level" _ E1) as [v3 ->].
  destruct (getProp_not_nullish st _ "Level" _ E1) as [v4 ->].
  apply level_chain_value.
Qed.

Lemma has_level_value (st : value) :
  has_level st = true -> exists v, level_value st = Some v /\ truthy v = true.
Proof.
  unfold has_level, level_value, read. rewrite existsb_exists.
  intros (k & Hk & Ht).
  destruct (find truthy
              (map (fun key => match getProp st key with
                               | Return a => a
                               | Throw => VUndefined
                               end) level_aliases)) as [v|] eqn:F.
  - exists v. split; [reflexivity|]. apply find_some in F. tauto.
  - exfalso.
    assert (N : truthy match getProp st k with Return a => a | Throw => VUndefined end
                = false).
    { apply (find_none _ _ F). apply in_map_iff. exists k.
      split; [reflexivity | exact Hk]. }
    destruct (getProp st k); [congruence | discriminate Ht].
Qed.

Lemma normalizeStation_level_from (now : string) (st : value) (r : StationReading) :
  has_level st = true -> normalizeStation now st = Return r -> level_from st r.
Proof.
  intros Hl H. apply normalizeStation_fields in H. destruct H as (_ & _ & H & _).
  apply getWaterLevel_value in H.
  destruct (has_level_value st Hl) as (v & Ev & _). rewrite Ev in H.
  destruct H as (x & Hx & Hr). exists v, x. repeat split; assumption.
Qed.

Lemma parseRiverData_stations_of (now : string) (raw : value)
    (out : list StationReading) :
  parseRiverData now raw = Return out ->
  parseRiverData now (VArray (stations_of raw)) = Return out.
Proof.
  unfold parseRiverData at 1. unfold stations_of, read.
  destruct (truthy raw) eqn:T; cbn [negb]; [|intros H; exact H].
  destruct (Array_isArray raw) eqn:A.
  { destruct raw; try discriminate A. cbn [bind elements]. intros H; exact H. }
  destruct (getProp raw "stations") as [s|] eqn:Es; [|destruct raw; discriminate].
  destruct (getProp raw "data") as [d|] eqn:Ed; [|destruct raw; discriminate].
  cbn [bind].
  destruct (truthy s) eqn:Ts; cbn [bind].
  { destruct s; try discriminate. cbn [elements]. intros H; exact H. }
  destruct (truthy d) eqn:Td; cbn [bind].
  { destruct d; try discriminate. cbn [elements]. intros H; exact H. }
  intros H; exact H.
Qed.

Lemma Forall2_filter_level (now : string) (l : list value) (out : list StationReading) :
  mapM (normalizeStation now) (filter has_level l) = Return out ->
  Forall2 level_from (filter has_level l) out.
Proof.
  intros H. apply mapM_Forall2 in H.
  assert (K : Forall (fun st => has_level st = true) (filter has_level l)).
  { apply Forall_forall. intros st Hst. apply filter_In in Hst. tauto. }
  revert K. induction H as [|st r l' rs Hr _ IH]; intros K; constructor.
  - inversion K; subst. exact (normalizeStation_level_from now st r H1 Hr).
  - inversion K; subst. apply IH. assumption.
Qed.

(** C2 (as amended). Every reading in the output has a level that is a
    number and not null, though the number may be NaN. The output holds
    exactly one reading, in order, for each raw station of the payload that
    has a truthy value under some level alias, and the level of that reading
    is [parseFloat] of the first such value; a station whose level aliases
    are all absent or falsy is absent from the output. *)
Theorem output_levels_not_null (now : string) (raw : value)
    (out : list StationReading) :
  parseRiverData now raw = Return out ->
  Forall (fun r => exists x : float, level r = Some x) out
  /\ mapM (normalizeStation now) (filter has_level (stations_of raw)) = Return out
  /\ Forall2 level_from (filter has_level (stations_of raw)) out.
Proof.
  intros H.
  assert (M : mapM (normalizeStation now) (filter has_level (stations_of raw))
              = Return out).
  { apply parseRiverData_stations_of in H. rewrite parseRiverData_array in H.
    bind_inv H. inversion H; subst. apply mapM_filter_level. assumption. }
  split; [|split; [exact M | exact (Forall2_filter_level _ _ _ M)]].
  apply parseRiverData_Return in H. destruct H as (l & rs & _ & ->).
  apply Forall_forall. intros r Hr. apply filter_In in Hr.
  destruct Hr as [_ Hr]. unfold level_not_null in Hr.
  destruct (level r) as [x|]; [eauto | discriminate].
Qed.

(** C2, as stated, fails: a station whose level is present and does not
    parse is kept, with the level NaN. *)
Lemma unparseable_level_is_kept :
  (exists r, parseRiverData clock unparseable_payload = Return [r]
             /\ level r = Some nan)
  /\ ~ (forall out,
          parseRiverData clock unparseable_payload = Return out ->
          levels_parsable out).
Proof.
  assert (E : exists r,
             parseRiverData clock unparseable_payload = Return [r]
             /\ level r = Some nan).
  { eexists. split; [vm_compute; reflexivity | reflexivity]. }
  split; [exact E|].
  destruct E as (r & E & Hr). intros C. specialize (C _ E).
  inversion C as [|? ? (x & Hx & Hnan) _]; subst.
  rewrite Hr in Hx. inversion Hx; subst. discriminate Hnan.
Qed.

Lemma output_levels_not_null_witness :
  parseRiverData clock (VArray two_stations) = Return [Peradeniya_reading]
  /\ Forall (fun r => exists x : float, level r = Some x) [Peradeniya_reading]
  /\ mapM (normalizeStation clock) (filter has_level (stations_of (VArray two_stations)))
     = Return [Peradeniya_reading]
  /\ Forall2 level_from (filter has_level (stations_of (VArray two_stations)))
             [Peradeniya_reading].
Proof.
  assert (E : parseRiverData clock (VArray two_stations) = Return [Peradeniya_reading])
    by (vm_compute; reflexivity).
  split; [exact E|].
  exact (output_levels_not_null _ _ _ E).
Defined.

(** *** Alerts of parsed readings *)

Lemma parsed_alert_is_derived (now : string) (raw : value) (out : list StationReading) :
  parseRiverData now raw = Return out ->
  Forall (fun r => determineAlertLevel (station r) (level r) = Return (alert r)) out.
Proof.
  intros H. apply parseRiverData_Return in H. destruct H as (l & rs & Hm & ->).
  apply mapM_Forall2 in Hm. apply Forall_forall. intros r Hr.
  apply filter_In in Hr. destruct Hr as [Hr _].
  destruct (Forall2_In_r _ _ _ Hm r Hr) as (st & _ & Hst).
  apply normalizeStation_fields in Hst. tauto.
Qed.

(** *** Payload shapes *)

(** C7 (as amended). [{data: L}], [{stations: L}] and the bare array [L]
    normalize alike, and a payload that is not an array and has no truthy
    [stations] or [data] property normalizes to the empty list. *)
Theorem payload_shapes (now : string) (l : list value) (raw : value) :
  parseRiverData now (VObject [("data", VArray l)]) = parseRiverData now (VArray l)
  /\ parseRiverData now (VObject [("stations", VArray l)]) = parseRiverData now (VArray l)
  /\ (Array_isArray raw = false ->
      falsy_prop raw "stations" ->
      falsy_prop raw "data" ->
      parseRiverData now raw = Return []).
Proof.
  split; [reflexivity|]. split; [reflexivity|].
  intros Harr Hs Hd. unfold parseRiverData. rewrite Harr.
  destruct (truthy raw) eqn:T; [|reflexivity]. cbn [negb].
  destruct (getProp raw "stations") as [s|] eqn:Es;
    [| destruct raw; discriminate].
  destruct (getProp raw "data") as [d|] eqn:Ed;
    [| destruct raw; discriminate].
  cbn [bind]. rewrite (Hs s Es). cbn [bind]. rewrite (Hd d Ed).
  reflexivity.
Qed.

Lemma payload_shapes_witness :
  Array_isArray counter_payload = false
  /\ falsy_prop counter_payload "stations"
  /\ falsy_prop counter_payload "data"
  /\ parseRiverData clock counter_payload = Return [].
Proof.
  assert (Hs : falsy_prop counter_payload "stations")
    by (intros v H; inversion H; reflexivity).
  assert (Hd : falsy_prop counter_payload "data")
    by (intros v H; inversion H; reflexivity).
  split; [reflexivity|]. split; [exact Hs|]. split; [exact Hd|].
  exact (proj2 (proj2 (payload_shapes clock [] counter_payload)) eq_refl Hs Hd).
Defined.

(** C7, as stated, fails: an object whose [stations] property is a number is
    none of the three shapes, and normalizing it throws (the property has no
    [map] method) instead of giving the empty list. *)
Lemma stations_not_an_array_throws :
  ~ named_shape stations_is_a_number
  /\ parseRiverData clock stations_is_a_number = Throw
  /\ parseRiverData clock stations_is_a_number <> Return [].
Proof.
  split; [|split; [reflexivity | discriminate]].
  intros (l & [H | [H | H]]); discriminate H.
Qed.

(** *** Defaults of the canonical fields *)

Lemma default_station_name (st : value) :
  absent st "station_name" -> absent st "station" ->
  absent st "name" -> absent st "Station" ->
  getStationName st = Return (VString "Unknown Station").
Proof.
  unfold absent, getStationName. intros -> -> -> ->. reflexivity.
Qed.

Lemma default_rate_of_rise (st : value) :
  absent st "rate_of_rise" -> absent st "rate" -> absent st "change_rate" ->
  getRateOfRise st = Return 0%float.
Proof.
  unfold absent, getRateOfRise. intros -> -> ->. vm_compute. reflexivity.
Qed.

Lemma critical_river_named (key : string) (e : Critical.t) :
  lookup key CRITICAL_STATIONS = Some e ->
  truthy (VString (Critical.river e)) = true.
Proof.
  cbn [lookup CRITICAL_STATIONS].
  repeat match goal with
         | |- context [String.eqb ?a key] => destruct (String.eqb a key)
         end;
    intros H; inversion H; reflexivity.
Qed.

Lemma default_river (st name : value) (key : string) :
  absent st "river_basin" -> absent st "river" ->
  absent st "basin" -> absent st "River" ->
  getStationName st = Return name ->
  ToString name = Return key ->
  getRiverName st
  = Return (VString match lookup key CRITICAL_STATIONS with
                    | Some e => Critical.river e
                    | None => "Unknown River"
                    end).
Proof.
  unfold absent, getRiverName, critical_river.
  intros -> -> -> -> -> Hkey. chain. rewrite Hkey. cbn [bind]. unfold get.
  destruct (lookup key CRITICAL_STATIONS) as [e|] eqn:E.
  - pose proof (critical_river_named key e E) as T. cbn [field]. chain. reflexivity.
  - destruct (inherited key); cbn [field]; chain; reflexivity.
Qed.

(** The coordinates when the payload gives none that count: from the
    registry, else the centroid, for a name that is not a member of
    [Object.prototype]. *)
Lemma fallback_coordinates (st name latitude longitude : value) (key : string) :
  getProp st "latitude" = Return latitude ->
  getProp st "longitude" = Return longitude ->
  truthy latitude && truthy longitude = false ->
  ToString name = Return key ->
  inherited key = false ->
  getCoordinates st name
  = Return match lookup key CRITICAL_STATIONS with
           | Some e => {| lat := Some (Critical.lat e); lng := Some (Critical.lng e) |}
           | None => SRI_LANKA_CENTER
           end.
Proof.
  unfold getCoordinates. intros -> -> T Hkey Hk. cbn [bind]. rewrite T, Hkey.
  cbn [bind]. unfold get. rewrite Hk.
  destruct (lookup key CRITICAL_STATIONS); reflexivity.
Qed.

Lemma explicit_coordinates (st name latitude longitude : value) :
  getProp st "latitude" = Return latitude ->
  getProp st "longitude" = Return longitude ->
  truthy latitude = true -> truthy longitude = true ->
  getCoordinates st name
  = (a <- parseFloat latitude ;; b <- parseFloat longitude ;;
     Return {| lat := Some a; lng := Some b |}).
Proof.
  unfold getCoordinates. intros -> -> T1 T2. cbn [bind]. rewrite T1, T2.
  reflexivity.
Qed.

(** C9 fails with the coordinates of such a station: [constructor] is no
    entry of the registry, yet the registry read finds the inherited
    function, and the coordinates are its missing [lat] and [lng], both
    undefined, not the centroid. *)
Theorem inherited_name_has_no_default_coordinates :
  absent station_named_constructor "latitude"
  /\ absent station_named_constructor "longitude"
  /\ getStationName station_named_constructor = Return (VString "constructor")
  /\ lookup "constructor" CRITICAL_STATIONS = None
  /\ get CRITICAL_STATIONS "constructor" = Inherited
  /\ getCoordinates station_named_constructor (VString "constructor")
     = Return {| lat := None; lng := None |}
  /\ getCoordinates station_named_constructor (VString "constructor")
     <> Return SRI_LANKA_CENTER.
Proof. repeat split. discriminate. Qed.

(** C10 fails at such a station: the zero latitude sends the resolution to
    the registry, where [toString] is no entry; the read finds the inherited
    function and the coordinates are undefined, not the centroid. *)
Theorem falsy_latitude_and_inherited_name :
  getProp station_named_toString "latitude" = Return (VNumber 0%float)
  /\ truthy (VNumber 0%float) = false
  /\ getStationName station_named_toString = Return (VString "toString")
  /\ lookup "toString" CRITICAL_STATIONS = None
  /\ getCoordinates station_named_toString (VString "toString")
     = Return {| lat := None; lng := None |}
  /\ getCoordinates station_named_toString (VString "toString")
     <> Return SRI_LANKA_CENTER.
Proof. repeat split. discriminate. Qed.

End NormalizerFacts.

(** ** Properties of the fetcher *)

Module FetcherFacts.
Import JS DataService Spec ClassifierFacts NormalizerFacts.
Local Open Scope Z_scope.

Lemma fetchFromSource_returns (fetch : Network) (url : string) :
  exists v, fetchFromSource fetch url = Return v.
Proof.
  unfold fetchFromSource.
  destruct (fetch url) as [r|]; cbn [bind try_catch]; [|eauto].
  destruct (ok r); cbn [negb try_catch]; [|eauto].
  destruct (json r); cbn [try_catch]; eauto.
Qed.

Lemma unavailable_returns (data : value) : exists b, unavailable data = Return b.
Proof.
  unfold unavailable. destruct (truthy data) eqn:T; cbn [negb]; [|eauto].
  destruct data; try discriminate T; cbn [getProp bind]; eauto.
Qed.

Lemma SourceDown_unavailable (fetch : Network) (url : string) :
  SourceDown fetch url ->
  exists v, fetchFromSource fetch url = Return v /\ unavailable v = Return true.
Proof.
  unfold fetchFromSource.
  intros [E | r E Hok | r E Hok Hj | r v E Hok Hj Hv]; rewrite E; cbn [bind].
  - exists VNull. split; reflexivity.
  - rewrite Hok. exists VNull. split; reflexivity.
  - rewrite Hok, Hj. exists VNull. split; reflexivity.
  - rewrite Hok, Hj. exists v. split; [reflexivity|].
    destruct Hv as [-> | ->]; reflexivity.
Qed.

(** C3 fails on the sample data, which the caller receives when both
    sources are down: the alerts of Hanwella, Glencourse and Rathnapura are
    not the tiers their levels classify to. Hanwella, at 9.69 m with a major
    cutoff of 9.0 m, is stored as a minor flood. *)
Theorem sample_alerts_not_derived (now : string) :
  fetchRiverData offline now = Return (getSampleData now)
  /\ map alert_is_derived (getSampleData now)
     = [true; true; true; true; false; false; false; true]
  /\ exists r, nth_error (getSampleData now) 4 = Some r
               /\ station r = VString "Hanwella"
               /\ level r = Some 9.69%float
               /\ alert r = label MinorFlood
               /\ determineAlertLevel (station r) (level r) = Return (label MajorFlood).
Proof.
  split; [reflexivity|]. split; [reflexivity|].
  eexists. split; [reflexivity|]. repeat split.
Qed.

End FetcherFacts.

(** ** More on the risk scorer *)

Module ScorerMore.
Import JS DataService Dashboard Spec Notions ScorerFacts.
Local Open Scope Z_scope.

Lemma sum_risk_Permutation (l l' : list StationReading) :
  Permutation l l' -> sum_risk l = sum_risk l'.
Proof.
  induction 1 as [| x l l' _ IH | x y l | l l' l'' _ IH1 _ IH2].
  - reflexivity.
  - rewrite !sum_risk_cons, IH. reflexivity.
  - rewrite !sum_risk_cons. lia.
  - congruence.
Qed.

Lemma filter_Permutation {A} (f : A -> bool) (l l' : list A) :
  Permutation l l' -> Permutation (filter f l) (filter f l').
Proof.
  induction 1 as [| x l l' _ IH | x y l | l l' l'' _ IH1 _ IH2]; cbn [filter].
  - constructor.
  - destruct (f x); [constructor|]; assumption.
  - destruct (f x), (f y); try reflexivity. constructor.
  - etransitivity; eassumption.
Qed.

Lemma numerator_sum (l : list StationReading) :
  numerator l = sum_risk l + 2 * sum_risk (critical l).
Proof. unfold numerator. rewrite accumulate_fold. lia. Qed.

Lemma numerator_Permutation (l l' : list StationReading) :
  Permutation l l' -> numerator l = numerator l'.
Proof.
  intros H. rewrite !numerator_sum.
  rewrite (sum_risk_Permutation _ _ H).
  rewrite (sum_risk_Permutation (critical l) (critical l')
             (filter_Permutation isCritical l l' H)).
  reflexivity.
Qed.

(** The score in terms of the numerator and the number of stations. *)
Lemma calculateFloodRisk_quotient (s : StationReading) (l : list StationReading) :
  calculateFloodRisk (s :: l)
  = Math_round (Qmin (inject_Z 100)
                     (inject_Z (numerator (s :: l))
                      / inject_Z (Z.of_nat (List.length (s :: l)) + 4))).
Proof. reflexivity. Qed.

(** X1. The score does not depend on the order of the stations. *)
Theorem score_ignores_order (l l' : list StationReading) :
  Permutation l l' -> calculateFloodRisk l = calculateFloodRisk l'.
Proof.
  intros H. destruct l as [|s l], l' as [|s' l'].
  - reflexivity.
  - apply Permutation_nil in H. discriminate H.
  - apply Permutation_sym, Permutation_nil in H. discriminate H.
  - rewrite !calculateFloodRisk_quotient.
    rewrite (numerator_Permutation _ _ H), (Permutation_length H). reflexivity.
Qed.

Lemma score_ignores_order_witness :
  Permutation [critical_major; quiet_station] [quiet_station; critical_major]
  /\ calculateFloodRisk [critical_major; quiet_station]
     = calculateFloodRisk [quiet_station; critical_major].
Proof.
  assert (H : Permutation [critical_major; quiet_station] [quiet_station; critical_major])
    by apply perm_swap.
  split; [exact H|]. exact (score_ignores_order _ _ H).
Defined.

Lemma Math_round_le (p q : Q) : (p <= q)%Q -> Math_round p <= Math_round q.
Proof.
  intros H. unfold Math_round. apply Qfloor_resp_le. apply Qplus_le_l. exact H.
Qed.

Lemma quotient_le (n d : Z) (c : Z) :
  0 < d -> n <= c * d -> (inject_Z n / inject_Z d <= inject_Z c)%Q.
Proof.
  intros Hd H. apply Qle_shift_div_r.
  - unfold Qlt; simpl; lia.
  - rewrite <- inject_Z_mult. rewrite <- Zle_Qle. exact H.
Qed.

Lemma sum_risk_at_most (l : list StationReading) :
  sum_risk l <= 60 * Z.of_nat (List.length l).
Proof.
  induction l as [|s l IH]; [reflexivity|].
  rewrite sum_risk_cons. cbn [List.length]. pose proof (stationRisk_range s). lia.
Qed.

Lemma critical_none (l : list StationReading) :
  Forall (fun s => isCritical s = false) l -> critical l = [].
Proof.
  unfold critical. induction 1 as [|s l Hs _ IH]; cbn [filter]; [reflexivity|].
  rewrite Hs. exact IH.
Qed.

(** X2. Without a critical station the score is at most 60, so the risk
    figure of the dashboard is never shown in red. *)
Theorem score_without_critical_stations (l : list StationReading) :
  Forall (fun s => isCritical s = false) l ->
  calculateFloodRisk l <= 60
  /\ getRiskColor (calculateFloodRisk l) <> "text-red-600".
Proof.
  intros H.
  assert (B : calculateFloodRisk l <= 60).
  { destruct l as [|s l]; [simpl; lia|].
    rewrite calculateFloodRisk_quotient.
    change 60 with (Math_round (inject_Z 60)). apply Math_round_le.
    eapply Qle_trans; [apply Q.le_min_r|].
    apply quotient_le; [lia|].
    rewrite numerator_sum, (critical_none _ H).
    pose proof (sum_risk_at_most (s :: l)). cbn [sum_risk fold_right] in *. lia. }
  split; [exact B|].
  unfold getRiskColor.
  destruct (75 <=? calculateFloodRisk l) eqn:E; [apply Z.leb_le in E; lia|].
  repeat match goal with |- context [if ?b then _ else _] => destruct b end;
    discriminate.
Qed.

Lemma score_without_critical_stations_witness :
  Forall (fun s => isCritical s = false) [rising_station; quiet_station]
  /\ calculateFloodRisk [rising_station; quiet_station] <= 60
  /\ getRiskColor (calculateFloodRisk [rising_station; quiet_station]) <> "text-red-600".
Proof.
  assert (H : Forall (fun s => isCritical s = false) [rising_station; quiet_station])
    by (repeat constructor).
  split; [exact H|]. exact (score_without_critical_stations _ H).
Defined.

Lemma quotient_antitone (n d : Z) :
  0 <= n -> 0 < d ->
  (inject_Z n / inject_Z (d + 1) <= inject_Z n / inject_Z d)%Q.
Proof.
  intros Hn Hd.
  apply Qle_shift_div_r; [unfold Qlt; simpl; lia|].
  unfold Qdiv. rewrite <- Qmult_assoc, (Qmult_comm (/ inject_Z d)), Qmult_assoc.
  apply Qle_shift_div_l; [unfold Qlt; simpl; lia|].
  rewrite <- !inject_Z_mult, <- Zle_Qle. nia.
Qed.

(** X3. A station that contributes no risk never raises the score: it only
    adds to the divisor. *)
Theorem riskless_station_dilutes (q : StationReading) (l : list StationReading) :
  stationRisk q = 0 -> calculateFloodRisk (q :: l) <= calculateFloodRisk l.
Proof.
  intros Hq.
  assert (N : numerator (q :: l) = numerator l).
  { rewrite !numerator_sum. unfold critical. cbn [filter].
    destruct (isCritical q); rewrite !sum_risk_cons, Hq; reflexivity. }
  destruct l as [|s l].
  - rewrite calculateFloodRisk_quotient, N. reflexivity.
  - rewrite (calculateFloodRisk_quotient q), (calculateFloodRisk_quotient s), N.
    apply Math_round_le. apply Q.min_le_compat_l.
    replace (Z.of_nat (List.length (q :: s :: l)) + 4)
      with ((Z.of_nat (List.length (s :: l)) + 4) + 1) by (cbn [List.length]; lia).
    apply quotient_antitone; [apply numerator_nonneg | lia].
Qed.

Lemma riskless_station_dilutes_witness :
  stationRisk quiet_station = 0
  /\ calculateFloodRisk [quiet_station; critical_major]
     <= calculateFloodRisk [critical_major].
Proof.
  split; [reflexivity|].
  apply (riskless_station_dilutes quiet_station [critical_major]). reflexivity.
Defined.

End ScorerMore.

(** ** More on the order of binary64 values *)

Module FloatOrderMore.
Import JS FloatOrder.

Lemma SFleb_ltb_trans (a b c : spec_float) :
  SFleb a b = true -> SFltb b c = true -> SFltb a c = true.
Proof.
  unfold SFleb, SFltb, SFcompare.
  destruct a as [sa|sa| |sa ma ea], b as [sb|sb| |sb mb eb], c as [sc|sc| |sc mc ec];
    try discriminate; try reflexivity;
    repeat match goal with s : bool |- _ => destruct s end;
    try discriminate; try reflexivity;
    change (Pos.compare_cont Eq) with Pos.compare;
    intros Hab Hbc;
    order_cases; simpl in *; try discriminate; try reflexivity; subst; lia.
Qed.

(** [a <= b] and [b < c] give [a < c]. *)
Lemma leb_ltb_trans (a b c : float) :
  (a <=? b)%float = true -> (b <? c)%float = true -> (a <? c)%float = true.
Proof.
  rewrite FloatAxioms.leb_spec, !FloatAxioms.ltb_spec. apply SFleb_ltb_trans.
Qed.

Lemma SFcompare_refl (x : spec_float) :
  x <> S754_nan -> SFcompare x x = Some Eq.
Proof.
  destruct x as [s|s| |s m e]; intros H; try congruence; cbn [SFcompare].
  - reflexivity.
  - destruct s; reflexivity.
  - change (Pos.compare_cont Eq m m) with (Pos.compare m m).
    destruct s; rewrite Z.compare_refl, Pos.compare_refl; reflexivity.
Qed.

Lemma is_nan_Prim2SF (x : float) : is_nan x = true -> Prim2SF x = S754_nan.
Proof.
  unfold is_nan. rewrite FloatAxioms.eqb_spec. unfold SFeqb. intros H.
  destruct (Prim2SF x) as [s|s| |s m e] eqn:E; try reflexivity;
    rewrite SFcompare_refl in H by discriminate; discriminate H.
Qed.

(** No comparison with NaN holds. *)
Lemma ge_nan (x t : float) : is_nan x = true -> ge x t = false.
Proof.
  intros H. unfold ge. rewrite FloatAxioms.leb_spec, (is_nan_Prim2SF x H).
  unfold SFleb. destruct (Prim2SF t); reflexivity.
Qed.

End FloatOrderMore.

(** ** More on the alert classification *)

Module ClassifierMore.
Import JS DataService Spec Notions FloatOrder FloatOrderMore ClassifierFacts NormalizerFacts.
Local Open Scope Z_scope.

Lemma determineAlertLevel_label (name : value) (level : option float) (a : string) :
  determineAlertLevel name level = Return a -> exists t, a = label t.
Proof.
  unfold determineAlertLevel. intros H. bind_inv H.
  repeat match type of H with
         | context [if ?b then _ else _] => destruct b
         end;
    inversion H;
    [exists MajorFlood | exists MinorFlood | exists Alert | exists Normal];
    reflexivity.
Qed.

Lemma determineAlertLevel_nan (name : value) (x : float) (a : string) :
  is_nan x = true ->
  determineAlertLevel name (Some x) = Return a -> a = label Normal.
Proof.
  unfold determineAlertLevel. intros Hx H. bind_inv H.
  cbn [number_of_level] in H. rewrite !(ge_nan x _ Hx) in H.
  inversion H. reflexivity.
Qed.

(** X4. A reading whose level is NaN is classified Normal, whatever the
    station: a level that did not parse never raises an alert. *)
Theorem unparsed_level_reads_normal (now : string) (raw : value)
    (out : list StationReading) :
  parseRiverData now raw = Return out ->
  Forall (fun r => forall x, level r = Some x -> is_nan x = true ->
                             alert r = label Normal) out.
Proof.
  intros H. apply parsed_alert_is_derived in H.
  apply Forall_forall. intros r Hr x Hl Hx.
  rewrite Forall_forall in H. specialize (H r Hr). rewrite Hl in H.
  exact (determineAlertLevel_nan _ _ _ Hx H).
Qed.

Lemma unparsed_level_reads_normal_witness :
  parseRiverData clock unparseable_payload
  = Return [ {| station := VString "Hanwella"; river := VString "Unknown River";
                level := Some nan; alert := NORMAL; rateOfRise := 0%float;
                rising := false; lastMeasured := VString clock;
                coordinates := SRI_LANKA_CENTER; isCritical := false |} ]
  /\ Forall (fun r => forall x, level r = Some x -> is_nan x = true ->
                                alert r = label Normal)
       [ {| station := VString "Hanwella"; river := VString "Unknown River";
            level := Some nan; alert := NORMAL; rateOfRise := 0%float;
            rising := false; lastMeasured := VString clock;
            coordinates := SRI_LANKA_CENTER; isCritical := false |} ].
Proof.
  assert (E : parseRiverData clock unparseable_payload
              = Return [ {| station := VString "Hanwella"; river := VString "Unknown River";
                            level := Some nan; alert := NORMAL; rateOfRise := 0%float;
                            rising := false; lastMeasured := VString clock;
                            coordinates := SRI_LANKA_CENTER; isCritical := false |} ])
    by (vm_compute; reflexivity).
  split; [exact E|]. exact (unparsed_level_reads_normal _ _ _ E).
Defined.

(** The cutoffs of every table entry are ordered. *)
Lemma cutoffs_ordered (name : string) :
  let t := match lookup name ALERT_THRESHOLDS with
           | Some t => t
           | None => default_cutoffs
           end in
  (Cutoff.alert t <=? Cutoff.minor t)%float = true
  /\ (Cutoff.minor t <=? Cutoff.major t)%float = true.
Proof.
  cbn [lookup ALERT_THRESHOLDS].
  repeat match goal with
         | |- context [String.eqb ?a name] => destruct (String.eqb a name)
         end;
    split; reflexivity.
Qed.

Lemma classify_normal (x major minor alert : float) :
  (alert <=? minor)%float = true -> (minor <=? major)%float = true ->
  (classify x major minor alert = Normal <-> ge x alert = false).
Proof.
  intros H1 H2. unfold classify. split.
  - destruct (ge x major), (ge x minor), (ge x alert); intros H;
      try discriminate H; reflexivity.
  - intros Ha.
    destruct (ge x minor) eqn:Hm.
    { unfold ge in *. rewrite (leb_trans _ _ _ H1 Hm) in Ha. discriminate Ha. }
    destruct (ge x major) eqn:HM.
    { unfold ge in *. rewrite (leb_trans _ _ _ H2 HM) in Hm. discriminate Hm. }
    rewrite Ha. reflexivity.
Qed.

(** X5. At a station whose name is not a member of [Object.prototype], a
    level is classified Normal exactly when it is below the alert cutoff of
    the station (the default one for a station without an entry): the three
    cutoffs of every entry are in order, so the alert cutoff alone decides
    whether a station is flagged. *)
Theorem normal_iff_below_alert_cutoff (name : string) (x : float) :
  inherited name = false ->
  determineAlertLevel (VString name) (Some x) = Return (label Normal)
  <-> ge x (Cutoff.alert match lookup name ALERT_THRESHOLDS with
                         | Some t => t
                         | None => default_cutoffs
                         end) = false.
Proof.
  intros Hname.
  rewrite (determineAlertLevel_own_or_default name (Some x) Hname).
  destruct (cutoffs_ordered name) as [H1 H2].
  rewrite <- (classify_normal _ _ _ _ H1 H2). cbn [number_of_level].
  split.
  - intros H. apply label_injective.
    exact (f_equal (fun c => match c with Return a => a | Throw => "" end) H).
  - intros ->. reflexivity.
Qed.

Lemma normal_iff_below_alert_cutoff_witness :
  inherited "Rathnapura" = false
  /\ (determineAlertLevel (VString "Rathnapura") (Some 4.4%float) = Return (label Normal)
      <-> ge 4.4%float
             (Cutoff.alert match lookup "Rathnapura" ALERT_THRESHOLDS with
                           | Some t => t
                           | None => default_cutoffs
                           end) = false).
Proof.
  split; [reflexivity|].
  apply (normal_iff_below_alert_cutoff "Rathnapura" 4.4%float). reflexivity.
Defined.

End ClassifierMore.

(** ** More on the normalizer *)

Module NormalizerMore.
Import JS DataService Spec Notions FloatOrder FloatOrderMore ClassifierFacts
       NormalizerFacts ClassifierMore.
Local Open Scope Z_scope.

Lemma or_else_truthy (a b : completion value) (r : value) :
  (a ||| b) = Return r ->
  (forall r', b = Return r' -> truthy r' = true) ->
  truthy r = true.
Proof.
  unfold or_else. destruct a as [v|]; cbn [bind]; [|discriminate].
  destruct (truthy v) eqn:T; intros H Hb.
  - inversion H; subst. exact T.
  - exact (Hb _ H).
Qed.

Lemma normalizeStation_flags (now : string) (st : value) (r : StationReading) :
  normalizeStation now st = Return r ->
  rising r = gt (rateOfRise r) 0.001
  /\ getTimestamp now st = Return (lastMeasured r)
  /\ exists key, ToString (station r) = Return key
                 /\ isCritical r = hasOwnProperty CRITICAL_STATIONS key.
Proof.
  unfold normalizeStation. intros H. bind_inv H.
  inversion H; subst; cbn. repeat split; try assumption. eauto.
Qed.

Lemma parsed_readings (now : string) (raw : value) (out : list StationReading) :
  parseRiverData now raw = Return out ->
  Forall (fun r => exists st, normalizeStation now st = Return r) out.
Proof.
  intros H. apply parseRiverData_Return in H. destruct H as (l & rs & Hm & ->).
  apply mapM_Forall2 in Hm. apply Forall_forall. intros r Hr.
  apply filter_In in Hr. destruct Hr as [Hr _].
  destruct (Forall2_In_r _ _ _ Hm r Hr) as (st & _ & Hst). eauto.
Qed.

(** X6. Every reading the normalizer produces has a station name, a river
    name and, when the clock reads a non-empty timestamp, a time of
    measurement that are truthy: none is undefined, null or an empty
    string. *)
Theorem names_are_never_empty (now : string) (raw : value)
    (out : list StationReading) :
  now <> "" ->
  parseRiverData now raw = Return out ->
  Forall (fun r => truthy (station r) = true
                   /\ truthy (river r) = true
                   /\ truthy (lastMeasured r) = true) out.
Proof.
  intros Hnow H. apply parsed_readings in H.
  apply Forall_forall. intros r Hr. rewrite Forall_forall in H.
  destruct (H r Hr) as (st & Hst).
  pose proof (normalizeStation_flags _ _ _ Hst) as (_ & Ht & _).
  apply normalizeStation_fields in Hst. destruct Hst as (Hs & Hv & _).
  repeat split.
  - apply (or_else_truthy _ _ _ Hs). intros r' E. inversion E. reflexivity.
  - apply (or_else_truthy _ _ _ Hv). intros r' E. inversion E. reflexivity.
  - apply (or_else_truthy _ _ _ Ht). intros r' E. inversion E. cbn [truthy].
    destruct (String.eqb_spec now ""); [contradiction | reflexivity].
Qed.

Lemma names_are_never_empty_witness :
  clock <> ""
  /\ parseRiverData clock (VArray two_stations) = Return [Peradeniya_reading]
  /\ Forall (fun r => truthy (station r) = true
                      /\ truthy (river r) = true
                      /\ truthy (lastMeasured r) = true) [Peradeniya_reading].
Proof.
  assert (Hc : clock <> "") by discriminate.
  assert (E : parseRiverData clock (VArray two_stations) = Return [Peradeniya_reading])
    by (vm_compute; reflexivity).
  split; [exact Hc|]. split; [exact E|].
  exact (names_are_never_empty _ _ _ Hc E).
Defined.

Lemma tier_points_of_label (t : AlertTier) :
  (if includes (label t) "Major" then 40
   else if includes (label t) "Minor" then 25
   else if includes (label t) "Alert" then 10
   else 0) = tier_points t.
Proof. destruct t; vm_compute; reflexivity. Qed.

Lemma rise_points_of_rate (rate : float) :
  (if gt rate 0.001 && gt rate 0.05 then 20
   else if gt rate 0.001 then 10
   else 0) = rise_points rate.
Proof.
  unfold rise_points.
  destruct (gt rate 0.05) eqn:H5.
  - assert (H1 : gt rate 0.001 = true).
    { unfold gt in *. apply (leb_ltb_trans _ 0.05%float); [reflexivity | exact H5]. }
    rewrite H1. reflexivity.
  - destruct (gt rate 0.001); reflexivity.
Qed.

(** X7. The scorer reads the classification of the normalizer as meant: for
    every reading the normalizer produces, the risk is the points of its
    tier (40, 25, 10 or 0) plus those of its rate of rise (20 above 0.05,
    10 above 0.001, else 0). *)
Theorem parsed_reading_risk (now : string) (raw : value)
    (out : list StationReading) :
  parseRiverData now raw = Return out ->
  Forall (fun r => exists t, alert r = label t
                             /\ stationRisk r
                                = tier_points t + rise_points (rateOfRise r)) out.
Proof.
  intros H. apply parsed_readings in H.
  apply Forall_forall. intros r Hr. rewrite Forall_forall in H.
  destruct (H r Hr) as (st & Hst).
  pose proof (normalizeStation_flags _ _ _ Hst) as (Hrise & _).
  apply normalizeStation_fields in Hst. destruct Hst as (_ & _ & _ & _ & _ & Ha).
  destruct (determineAlertLevel_label _ _ _ Ha) as (t & Et).
  exists t. split; [exact Et|].
  unfold stationRisk. rewrite Et, Hrise, tier_points_of_label, rise_points_of_rate.
  reflexivity.
Qed.

Lemma parsed_reading_risk_witness :
  parseRiverData clock (VArray two_stations) = Return [Peradeniya_reading]
  /\ Forall (fun r => exists t, alert r = label t
                                /\ stationRisk r
                                   = tier_points t + rise_points (rateOfRise r))
       [Peradeniya_reading].
Proof.
  assert (E : parseRiverData clock (VArray two_stations) = Return [Peradeniya_reading])
    by (vm_compute; reflexivity).
  split; [exact E|]. exact (parsed_reading_risk _ _ _ E).
Defined.

Lemma mapM_Throw {A B} (f : A -> completion B) (l : list A) (x : A) :
  In x l -> f x = Throw -> mapM f l = Throw.
Proof.
  intros Hin Hx. induction l as [|a l IH]; [contradiction|].
  cbn [mapM]. destruct Hin as [-> | Hin].
  - rewrite Hx. reflexivity.
  - destruct (f a); [|reflexivity]. cbn [bind]. rewrite (IH Hin). reflexivity.
Qed.

End NormalizerMore.

(** ** More on the fetcher *)

Module FetcherMore.
Import JS DataService Spec Notions ClassifierFacts NormalizerFacts NormalizerMore
       FetcherFacts.
Local Open Scope Z_scope.

Lemma usable_fetchFromSource (fetch : Network) (url : string) (data : value) :
  usable fetch url data ->
  fetchFromSource fetch url = Return data /\ unavailable data = Return false.
Proof.
  intros (r & E & Hok & Hj & Hu). unfold fetchFromSource.
  rewrite E. cbn [bind]. rewrite Hok, Hj. split; [reflexivity | exact Hu].
Qed.

Lemma fetchRiverData_from_primary (fetch : Network) (now : string) (data : value) :
  usable fetch DATA_SOURCES_irrigation data ->
  fetchRiverData fetch now
  = try_catch (parseRiverData now data) (Return (getSampleData now)).
Proof.
  intros H. apply usable_fetchFromSource in H. destruct H as [E U].
  unfold fetchRiverData. rewrite E. cbn [bind]. rewrite U. cbn [bind].
  rewrite U. cbn [bind]. destruct (parseRiverData now data); reflexivity.
Qed.

Lemma fetchRiverData_from_secondary (fetch : Network) (now : string) (data : value) :
  SourceDown fetch DATA_SOURCES_irrigation ->
  usable fetch DATA_SOURCES_dmc data ->
  fetchRiverData fetch now
  = try_catch (parseRiverData now data) (Return (getSampleData now)).
Proof.
  intros H1 H2. apply usable_fetchFromSource in H2. destruct H2 as [E U].
  destruct (SourceDown_unavailable _ _ H1) as (v1 & E1 & U1).
  unfold fetchRiverData. rewrite E1. cbn [bind]. rewrite U1. cbn [bind].
  rewrite E. cbn [bind]. rewrite U. cbn [bind].
  destruct (parseRiverData now data); reflexivity.
Qed.

Lemma fetchRiverData_cases (fetch : Network) (now : string)
    (out : list StationReading) :
  fetchRiverData fetch now = Return out ->
  out = getSampleData now \/ exists data, parseRiverData now data = Return out.
Proof.
  unfold fetchRiverData.
  match goal with |- context [try_catch ?c _] => destruct c as [o|] eqn:E end;
    cbn [try_catch]; intros Ho; inversion Ho; subst; [|left; reflexivity].
  bind_inv E.
  match type of E with
  | (if ?b then _ else _) = _ => destruct b
  end; [left; inversion E; reflexivity | right; eauto].
Qed.

Lemma fetchRiverData_returns (fetch : Network) (now : string) :
  exists out, fetchRiverData fetch now = Return out.
Proof.
  unfold fetchRiverData.
  match goal with |- context [try_catch ?c _] => destruct c end;
    cbn [try_catch]; eauto.
Qed.

(** X8. [fetchFromSource] never throws, and what it returns is null unless
    it is the JSON body of a response with a success status: the body of an
    error response is never passed on. *)
Theorem fetchFromSource_returns_body_or_null (fetch : Network) (url : string) :
  exists v,
    fetchFromSource fetch url = Return v
    /\ (v = VNull
        \/ exists r, fetch url = Return r /\ ok r = true /\ json r = Return v).
Proof.
  unfold fetchFromSource.
  destruct (fetch url) as [r|] eqn:E; cbn [bind try_catch].
  - destruct (ok r) eqn:Hok; cbn [negb try_catch].
    + destruct (json r) as [v|] eqn:Hj; cbn [try_catch].
      * exists v. split; [reflexivity|]. right. exists r. repeat split; assumption.
      * exists VNull. split; [reflexivity | left; reflexivity].
    + exists VNull. split; [reflexivity | left; reflexivity].
  - exists VNull. split; [reflexivity | left; reflexivity].
Qed.

(** X9. When the primary source is usable the secondary one plays no part:
    the result is the normalization of the primary data, or the sample data
    when normalizing throws, and it is the same on every network that
    answers the primary address alike. *)
Theorem usable_primary_decides (fetch fetch' : Network) (now : string) (data : value) :
  usable fetch DATA_SOURCES_irrigation data ->
  fetch' DATA_SOURCES_irrigation = fetch DATA_SOURCES_irrigation ->
  fetchRiverData fetch now
  = try_catch (parseRiverData now data) (Return (getSampleData now))
  /\ fetchRiverData fetch' now = fetchRiverData fetch now.
Proof.
  intros H E.
  assert (H' : usable fetch' DATA_SOURCES_irrigation data).
  { destruct H as (r & Hr & Hrest). exists r. rewrite E. split; assumption. }
  rewrite (fetchRiverData_from_primary _ _ _ H).
  rewrite (fetchRiverData_from_primary _ _ _ H'). split; reflexivity.
Qed.

Lemma usable_primary_decides_witness :
  usable (serving DATA_SOURCES_irrigation (VArray two_stations))
         DATA_SOURCES_irrigation (VArray two_stations)
  /\ both_sources DATA_SOURCES_irrigation
     = serving DATA_SOURCES_irrigation (VArray two_stations) DATA_SOURCES_irrigation
  /\ fetchRiverData both_sources clock
     = fetchRiverData (serving DATA_SOURCES_irrigation (VArray two_stations)) clock.
Proof.
  assert (H : usable (serving DATA_SOURCES_irrigation (VArray two_stations))
                     DATA_SOURCES_irrigation (VArray two_stations)).
  { exists (ok_response (VArray two_stations)). repeat split. }
  assert (E : both_sources DATA_SOURCES_irrigation
              = serving DATA_SOURCES_irrigation (VArray two_stations)
                        DATA_SOURCES_irrigation) by reflexivity.
  split; [exact H|]. split; [exact E|].
  exact (proj2 (usable_primary_decides _ both_sources clock _ H E)).
Defined.

(** X10. When the primary source is down and the secondary one is usable,
    the result is the normalization of the secondary data, or the sample
    data when normalizing throws. *)
Theorem secondary_takes_over (fetch : Network) (now : string) (data : value) :
  SourceDown fetch DATA_SOURCES_irrigation ->
  usable fetch DATA_SOURCES_dmc data ->
  fetchRiverData fetch now
  = try_catch (parseRiverData now data) (Return (getSampleData now)).
Proof. intros H1 H2. exact (fetchRiverData_from_secondary _ _ _ H1 H2). Qed.

Lemma secondary_takes_over_witness :
  SourceDown (serving DATA_SOURCES_dmc (VArray two_stations)) DATA_SOURCES_irrigation
  /\ usable (serving DATA_SOURCES_dmc (VArray two_stations))
            DATA_SOURCES_dmc (VArray two_stations)
  /\ fetchRiverData (serving DATA_SOURCES_dmc (VArray two_stations)) clock
     = try_catch (parseRiverData clock (VArray two_stations))
                 (Return (getSampleData clock)).
Proof.
  assert (H1 : SourceDown (serving DATA_SOURCES_dmc (VArray two_stations))
                          DATA_SOURCES_irrigation)
    by (apply transport_failure; reflexivity).
  assert (H2 : usable (serving DATA_SOURCES_dmc (VArray two_stations))
                      DATA_SOURCES_dmc (VArray two_stations)).
  { exists (ok_response (VArray two_stations)). repeat split. }
  split; [exact H1|]. split; [exact H2|].
  exact (secondary_takes_over _ clock _ H1 H2).
Defined.

(** X11. One null entry among the stations makes the normalizer throw,
    whatever the other stations are, and costs the caller every station of
    the payload: when it comes from a usable primary source, the result is
    the sample data. *)
Theorem null_station_rejects_the_payload (now : string) (l : list value) (raw : value) :
  wraps raw l -> In VNull l ->
  parseRiverData now raw = Throw
  /\ (forall fetch, usable fetch DATA_SOURCES_irrigation raw ->
                    fetchRiverData fetch now = Return (getSampleData now)).
Proof.
  intros Hw Hin.
  assert (E : parseRiverData now raw = Throw).
  { assert (E : parseRiverData now raw = parseRiverData now (VArray l))
      by (destruct Hw as [-> | [-> | ->]]; reflexivity).
    rewrite E, parseRiverData_array, (mapM_Throw _ _ VNull Hin); reflexivity. }
  split; [exact E|].
  intros fetch H. rewrite (fetchRiverData_from_primary _ _ _ H), E. reflexivity.
Qed.

Lemma null_station_rejects_the_payload_witness :
  wraps (VObject [("data", VArray (two_stations ++ [VNull]))]) (two_stations ++ [VNull])
  /\ In VNull (two_stations ++ [VNull])
  /\ parseRiverData clock (VObject [("data", VArray (two_stations ++ [VNull]))]) = Throw.
Proof.
  assert (Hw : wraps (VObject [("data", VArray (two_stations ++ [VNull]))])
                     (two_stations ++ [VNull]))
    by (right; right; reflexivity).
  assert (Hin : In VNull (two_stations ++ [VNull]))
    by (apply in_or_app; right; left; reflexivity).
  split; [exact Hw|]. split; [exact Hin|].
  exact (proj1 (null_station_rejects_the_payload clock _ _ Hw Hin)).
Defined.

(** X12. Stations without a level are no reason to fall back: when the
    usable primary source lists stations of which none has a level, and
    normalizing them succeeds, the caller receives the empty list, not the
    sample data. *)
Theorem stations_without_levels_give_empty_list (fetch : Network) (now : string)
    (l : list value) (out : list StationReading) :
  usable fetch DATA_SOURCES_irrigation (VArray l) ->
  Forall (fun st => has_level st = false) l ->
  parseRiverData now (VArray l) = Return out ->
  out = [] /\ fetchRiverData fetch now = Return [].
Proof.
  intros H Hl Hp.
  assert (E : out = []).
  { rewrite parseRiverData_array in Hp. bind_inv Hp. inversion Hp; subst.
    pose proof (mapM_filter_level _ _ _ E) as F.
    assert (N : filter has_level l = []).
    { clear -Hl. induction Hl as [|st l Hst _ IH]; cbn [filter]; [reflexivity|].
      rewrite Hst. exact IH. }
    rewrite N in F. cbn [mapM] in F. inversion F. reflexivity. }
  split; [exact E|].
  rewrite (fetchRiverData_from_primary _ _ _ H).
  rewrite Hp, E. reflexivity.
Qed.

Lemma stations_without_levels_give_empty_list_witness :
  usable (serving DATA_SOURCES_irrigation (VArray [VObject [("station", VString "Hanwella")]]))
         DATA_SOURCES_irrigation (VArray [VObject [("station", VString "Hanwella")]])
  /\ Forall (fun st => has_level st = false) [VObject [("station", VString "Hanwella")]]
  /\ fetchRiverData
       (serving DATA_SOURCES_irrigation (VArray [VObject [("station", VString "Hanwella")]]))
       clock
     = Return [].
Proof.
  assert (H : usable (serving DATA_SOURCES_irrigation
                        (VArray [VObject [("station", VString "Hanwella")]]))
                     DATA_SOURCES_irrigation
                     (VArray [VObject [("station", VString "Hanwella")]])).
  { exists (ok_response (VArray [VObject [("station", VString "Hanwella")]])).
    repeat split. }
  assert (Hl : Forall (fun st => has_level st = false)
                      [VObject [("station", VString "Hanwella")]])
    by (repeat constructor).
  split; [exact H|]. split; [exact Hl|].
  exact (proj2 (stations_without_levels_give_empty_list _ clock _ [] H Hl
                  ltac:(vm_compute; reflexivity))).
Defined.

Lemma sample_flags (now : string) :
  Forall (fun r => rising r = gt (rateOfRise r) 0.001
                   /\ exists key, ToString (station r) = Return key
                                  /\ isCritical r = hasOwnProperty CRITICAL_STATIONS key)
         (getSampleData now).
Proof.
  unfold getSampleData.
  repeat (constructor; [split; [reflexivity | eexists; split; reflexivity]|]).
  constructor.
Qed.

(** X13. Every reading the caller receives, parsed or sample, has flags that
    agree with its other fields: [rising] holds exactly when the rate of
    rise exceeds 0.001, and [isCritical] exactly when the station name is an
    own key of the critical-station registry. *)
Theorem delivered_flags_are_consistent (fetch : Network) (now : string)
    (out : list StationReading) :
  fetchRiverData fetch now = Return out ->
  Forall (fun r => rising r = gt (rateOfRise r) 0.001
                   /\ exists key, ToString (station r) = Return key
                                  /\ isCritical r = hasOwnProperty CRITICAL_STATIONS key)
         out.
Proof.
  intros H. destruct (fetchRiverData_cases _ _ _ H) as [-> | (data & Hp)].
  - apply sample_flags.
  - apply parsed_readings in Hp. apply Forall_forall. intros r Hr.
    rewrite Forall_forall in Hp. destruct (Hp r Hr) as (st & Hst).
    pose proof (normalizeStation_flags _ _ _ Hst) as (H1 & _ & H2).
    split; assumption.
Qed.

Lemma delivered_flags_are_consistent_witness :
  fetchRiverData offline clock = Return (getSampleData clock)
  /\ Forall (fun r => rising r = gt (rateOfRise r) 0.001
                      /\ exists key, ToString (station r) = Return key
                                     /\ isCritical r = hasOwnProperty CRITICAL_STATIONS key)
            (getSampleData clock).
Proof.
  assert (E : fetchRiverData offline clock = Return (getSampleData clock))
    by reflexivity.
  split; [exact E|]. exact (delivered_flags_are_consistent _ _ _ E).
Defined.

End FetcherMore.

(** ** The fallback chain of the fetcher *)

Module FallbackFacts.
Import JS DataService Spec Notions NormalizerFacts FetcherFacts FetcherMore.
Local Open Scope Z_scope.

(** [Unavailable] is the test [!data || data.length === 0] on what
    [fetchFromSource] returns. *)
Lemma Unavailable_unavailable (fetch : Network) (url : string) :
  Unavailable fetch url ->
  exists v, fetchFromSource fetch url = Return v /\ unavailable v = Return true.
Proof.
  unfold fetchFromSource.
  intros [E | r E Hok | r E Hok Hj | r v E Hok Hj Hv | r v x E Hok Hj Hv Hl Hx];
    rewrite E; cbn [bind].
  - exists VNull. split; reflexivity.
  - rewrite Hok. exists VNull. split; reflexivity.
  - rewrite Hok, Hj. exists VNull. split; reflexivity.
  - rewrite Hok, Hj. exists v. split; [reflexivity|].
    unfold unavailable. rewrite Hv. reflexivity.
  - rewrite Hok, Hj. exists v. split; [reflexivity|].
    unfold unavailable. rewrite Hv. cbn [negb]. rewrite Hl. cbn [bind strict_equals_zero].
    rewrite Hx. reflexivity.
Qed.

Lemma unavailable_Unavailable (fetch : Network) (url : string) (v : value) :
  fetchFromSource fetch url = Return v -> unavailable v = Return true ->
  Unavailable fetch url.
Proof.
  unfold fetchFromSource.
  destruct (fetch url) as [r|] eqn:E; cbn [bind try_catch];
    [|intros _ _; apply not_reached; exact E].
  destruct (ok r) eqn:Hok; cbn [negb try_catch];
    [|intros _ _; exact (bad_status _ _ r E Hok)].
  destruct (json r) as [b|] eqn:Hj; cbn [try_catch];
    [|intros _ _; exact (not_json _ _ r E Hok Hj)].
  intros Hb Hu. inversion Hb; subst. unfold unavailable in Hu.
  destruct (truthy v) eqn:T; cbn [negb] in Hu;
    [|exact (falsy_result _ _ r v E Hok Hj T)].
  apply bind_Return in Hu. destruct Hu as (len & Hl & Hz).
  destruct len; try discriminate Hz. cbn [strict_equals_zero] in Hz.
  inversion Hz as [Hx]. exact (zero_length _ _ r v x E Hok Hj T Hl Hx).
Qed.

(** Every source is passed over or usable. *)
Lemma source_cases (fetch : Network) (url : string) :
  Unavailable fetch url \/ exists data, usable fetch url data.
Proof.
  destruct (fetchFromSource_returns fetch url) as (v & Ev).
  destruct (unavailable_returns v) as ([|] & Hu).
  - left. exact (unavailable_Unavailable _ _ _ Ev Hu).
  - right. exists v. unfold fetchFromSource in Ev.
    destruct (fetch url) as [r|] eqn:E; cbn [bind try_catch] in Ev;
      [|inversion Ev; subst; discriminate Hu].
    destruct (ok r) eqn:Hok; cbn [negb try_catch] in Ev;
      [|inversion Ev; subst; discriminate Hu].
    destruct (json r) as [b|] eqn:Hj; cbn [try_catch] in Ev;
      [|inversion Ev; subst; discriminate Hu].
    inversion Ev; subst. exists r. repeat split; assumption.
Qed.

Lemma fetchRiverData_kept (fetch : Network) (now : string) (data : value) :
  kept fetch data ->
  fetchRiverData fetch now
  = try_catch (parseRiverData now data) (Return (getSampleData now)).
Proof.
  intros [H | [H1 H2]]; [exact (fetchRiverData_from_primary _ _ _ H)|].
  apply usable_fetchFromSource in H2. destruct H2 as [E U].
  destruct (Unavailable_unavailable _ _ H1) as (v1 & E1 & U1).
  unfold fetchRiverData. rewrite E1. cbn [bind]. rewrite U1. cbn [bind].
  rewrite E. cbn [bind]. rewrite U. cbn [bind].
  destruct (parseRiverData now data); reflexivity.
Qed.

(** C6 (as amended). [fetchRiverData] never throws, whatever the two
    sources do. A source is passed over when its request fails, its status
    is not a success, its body is not JSON, or its parsed result is falsy or
    has a length of 0; when both sources are passed over the result is the
    fixed sample of 8 stations. In every other case the data of the first
    source that is not passed over is normalized: the result is that list,
    which may be empty, and the sample when normalizing throws. *)
Theorem fetchRiverData_absorbs_failures (fetch : Network) (now : string) :
  (exists out, fetchRiverData fetch now = Return out)
  /\ (Unavailable fetch DATA_SOURCES_irrigation ->
      Unavailable fetch DATA_SOURCES_dmc ->
      fetchRiverData fetch now = Return (getSampleData now))
  /\ (forall data, kept fetch data ->
      fetchRiverData fetch now
      = try_catch (parseRiverData now data) (Return (getSampleData now)))
  /\ ((Unavailable fetch DATA_SOURCES_irrigation /\ Unavailable fetch DATA_SOURCES_dmc)
      \/ exists data, kept fetch data)
  /\ List.length (getSampleData now) = 8%nat.
Proof.
  split; [apply fetchRiverData_returns|].
  split.
  { intros H1 H2. unfold fetchRiverData.
    destruct (Unavailable_unavailable _ _ H1) as (v1 & -> & U1).
    cbn [bind]. rewrite U1. cbn [bind].
    destruct (Unavailable_unavailable _ _ H2) as (v2 & -> & U2).
    cbn [bind]. rewrite U2. reflexivity. }
  split; [intros data; apply fetchRiverData_kept|].
  split; [|reflexivity].
  destruct (source_cases fetch DATA_SOURCES_irrigation) as [H1 | (data & H1)].
  - destruct (source_cases fetch DATA_SOURCES_dmc) as [H2 | (data & H2)].
    + left. split; assumption.
    + right. exists data. right. split; assumption.
  - right. exists data. left. exact H1.
Qed.

Lemma fetchRiverData_absorbs_failures_witness :
  Unavailable offline DATA_SOURCES_irrigation
  /\ Unavailable offline DATA_SOURCES_dmc
  /\ fetchRiverData offline clock = Return (getSampleData clock)
  /\ kept both_sources (VArray two_stations)
  /\ fetchRiverData both_sources clock
     = try_catch (parseRiverData clock (VArray two_stations))
                 (Return (getSampleData clock)).
Proof.
  assert (H1 : Unavailable offline DATA_SOURCES_irrigation)
    by (apply not_reached; reflexivity).
  assert (H2 : Unavailable offline DATA_SOURCES_dmc)
    by (apply not_reached; reflexivity).
  assert (K : kept both_sources (VArray two_stations)).
  { left. exists (ok_response (VArray two_stations)). repeat split. }
  split; [exact H1|]. split; [exact H2|].
  split; [exact (proj1 (proj2 (fetchRiverData_absorbs_failures offline clock)) H1 H2)|].
  split; [exact K|].
  exact (proj1 (proj2 (proj2 (fetchRiverData_absorbs_failures both_sources clock)))
           _ K).
Defined.

(** C6, as stated, fails: when both sources answer with an empty list of
    stations in the shape [{stations: []}], neither is passed over, and the
    result is the empty list, not the sample data. *)
Lemma empty_station_lists_give_no_sample :
  fetchFromSource empty_sources DATA_SOURCES_irrigation
  = Return (VObject [("stations", VArray [])])
  /\ fetchFromSource empty_sources DATA_SOURCES_dmc
     = Return (VObject [("stations", VArray [])])
  /\ parseRiverData clock (VObject [("stations", VArray [])]) = Return []
  /\ fetchRiverData empty_sources clock = Return []
  /\ fetchRiverData empty_sources clock <> Return (getSampleData clock).
Proof. repeat split. discriminate. Qed.

End FallbackFacts.

(** ** Properties of the historical data *)

Module HistoryFacts.
Import JS DataService History Spec Notions NormalizerFacts NormalizerMore.
Local Open Scope Z_scope.

(** What a reading of the history is: of the station asked for, and with a
    level. *)
Lemma visit_Return (fetch : Network) (now : string) (name : value)
    (acc acc' : list StationReading) (file : value) :
  visit fetch now name acc file = Return acc' ->
  acc' = acc
  \/ exists r, acc' = (acc ++ [r])%list
               /\ strict_equals (station r) name = true
               /\ exists x, level r = Some x.
Proof.
  unfold visit. intros H. bind_inv H.
  destruct (truthy a0); [|left; inversion H; reflexivity].
  bind_inv H.
  destruct (find (fun s => strict_equals (station s) name) a1) as [r|] eqn:F;
    [|left; inversion H; reflexivity].
  right. exists r. apply find_some in F. destruct F as [Hin Hr].
  split; [inversion H; reflexivity|]. split; [exact Hr|].
  apply parseRiverData_Return in E1. destruct E1 as (l & rs & _ & ->).
  apply filter_In in Hin. destruct Hin as [_ Hl]. unfold level_not_null in Hl.
  destruct (level r) as [x|]; [eauto | discriminate].
Qed.

Lemma for_of_Return (fetch : Network) (now : string) (name : value)
    (files : list value) (acc out : list StationReading) :
  for_of fetch now name files acc = Return out ->
  exists more, out = (acc ++ more)%list
               /\ (List.length more <= List.length files)%nat
               /\ Forall (fun r => strict_equals (station r) name = true
                                   /\ exists x, level r = Some x) more.
Proof.
  revert acc. induction files as [|file files IH]; intros acc H; cbn [for_of] in H.
  - inversion H. exists []. rewrite app_nil_r. repeat split; constructor.
  - bind_inv H. destruct (IH _ H) as (more & -> & Hlen & Hall).
    destruct (visit_Return _ _ _ _ _ _ E) as [-> | (r & -> & Hr)].
    + exists more. repeat split; [cbn [List.length]; lia | exact Hall].
    + exists (r :: more). rewrite <- app_assoc. repeat split.
      * cbn [List.length]. lia.
      * constructor; assumption.
Qed.

Lemma for_of_Throw (fetch : Network) (now : string) (name : value)
    (files : list value) (file : value) (acc : list StationReading) :
  In file files ->
  (forall acc', visit fetch now name acc' file = Throw) ->
  for_of fetch now name files acc = Throw.
Proof.
  intros Hin Hf. revert acc.
  induction files as [|f files IH]; intros acc; [contradiction|].
  cbn [for_of]. destruct Hin as [-> | Hin].
  - rewrite Hf. reflexivity.
  - destruct (visit fetch now name acc f); [|reflexivity]. cbn [bind].
    apply (IH Hin).
Qed.

Lemma filterM_Throw {A} (p : A -> completion bool) (l : list A) (x : A) :
  In x l -> p x = Throw -> filterM p l = Throw.
Proof.
  intros Hin Hx. induction l as [|a l IH]; [contradiction|].
  cbn [filterM]. destruct Hin as [-> | Hin].
  - rewrite Hx. reflexivity.
  - destruct (p a); [|reflexivity]. cbn [bind]. rewrite (IH Hin). reflexivity.
Qed.

Lemma slice_length {A} (c : Z) (l : list A) :
  0 <= c -> Z.of_nat (List.length (slice (Integer c) l)) <= c.
Proof.
  intros Hc. unfold slice, slice_end.
  destruct (c <? 0) eqn:E; [apply Z.ltb_lt in E; lia|].
  rewrite length_firstn. lia.
Qed.

(** X14. [fetchHistoricalData] always returns, and what it returns are
    readings of the station asked for ([===] on the name), each with a level
    that is not null. *)
Theorem history_holds_the_station_asked_for
    (sort : list value -> list value) (fetch : Network) (now : string)
    (stationName : value) (hours : option float) :
  exists out,
    fetchHistoricalData sort fetch now stationName hours = Return out
    /\ Forall (fun r => strict_equals (station r) stationName = true
                        /\ exists x, level r = Some x) out.
Proof.
  unfold fetchHistoricalData.
  match goal with |- context [try_catch ?c _] => destruct c as [out|] eqn:E end;
    cbn [try_catch].
  - exists out. split; [reflexivity|]. bind_inv E.
    destruct (for_of_Return _ _ _ _ _ _ E) as (more & -> & _ & Hall). exact Hall.
  - exists []. split; [reflexivity | constructor].
Qed.

(** X15. The history holds at most one reading for each of the files it
    visits, and it visits at most [Math.ceil(hours / 3)] of them when that
    is not negative: 8 for the default of 24 hours. *)
Theorem history_length_bound
    (sort : list value -> list value) (fetch : Network) (now : string)
    (stationName : value) (hours : option float) (c : Z)
    (out : list StationReading) :
  Math_ceil (hours_or_default hours / 3)%float = Integer c ->
  0 <= c ->
  fetchHistoricalData sort fetch now stationName hours = Return out ->
  Z.of_nat (List.length out) <= c.
Proof.
  intros Hc Hpos. unfold fetchHistoricalData.
  match goal with |- context [try_catch ?c _] => destruct c as [o|] eqn:E end;
    cbn [try_catch]; intros H; inversion H; subst; [|cbn; lia].
  bind_inv E.
  destruct (for_of_Return _ _ _ _ _ _ E) as (more & -> & Hlen & _).
  cbn [app].
  match goal with
  | Hr : recentFiles _ ?files _ = Return _ |- _ =>
      unfold recentFiles in Hr; destruct files; try discriminate Hr;
      bind_inv Hr; inversion Hr; subst
  end.
  rewrite Hc in Hlen.
  match type of Hlen with
  | context [slice _ ?l] => pose proof (slice_length c l Hpos)
  end.
  lia.
Qed.

Lemma history_length_bound_witness :
  Math_ceil (hours_or_default None / 3)%float = Integer 8
  /\ 0 <= 8
  /\ exists out,
       fetchHistoricalData unsorted history_network clock (VString "Hanwella") None
       = Return out
       /\ Z.of_nat (List.length out) <= 8.
Proof.
  split; [reflexivity|]. split; [lia|].
  eexists. split; [vm_compute; reflexivity|].
  apply (history_length_bound unsorted history_network clock (VString "Hanwella")
           None 8); [reflexivity | lia | vm_compute; reflexivity].
Defined.

(** X16. When the directory listing cannot be used, because the request
    fails, the body is not a JSON array, or one entry of it has no string
    for its name, the history is empty. *)
Theorem unusable_listing_gives_no_history
    (sort : list value -> list value) (fetch : Network) (now : string)
    (stationName : value) (hours : option float) :
  ListingUnusable fetch ->
  fetchHistoricalData sort fetch now stationName hours = Return [].
Proof.
  unfold fetchHistoricalData.
  intros [E | r E Hj | r v E Hj Hv | r l f E Hj Hin Hf]; rewrite E; cbn [bind].
  - reflexivity.
  - rewrite Hj. reflexivity.
  - rewrite Hj. cbn [bind]. destruct v; try discriminate Hv; reflexivity.
  - rewrite Hj. cbn [bind recentFiles].
    rewrite (filterM_Throw _ _ f Hin); [reflexivity|].
    unfold is_json_file. destruct (getProp f "name") as [v|] eqn:En; [|reflexivity].
    cbn [bind]. destruct v; try reflexivity. exfalso. exact (Hf s eq_refl).
Qed.

Lemma unusable_listing_gives_no_history_witness :
  ListingUnusable (serving HISTORY_URL (VArray [VObject [("path", VString "a.json")]]))
  /\ fetchHistoricalData unsorted
       (serving HISTORY_URL (VArray [VObject [("path", VString "a.json")]]))
       clock (VString "Hanwella") None
     = Return [].
Proof.
  assert (H : ListingUnusable
                (serving HISTORY_URL (VArray [VObject [("path", VString "a.json")]]))).
  { apply (listing_entry_unnamed _ (ok_response (VArray [VObject [("path", VString "a.json")]]))
             [VObject [("path", VString "a.json")]]
             (VObject [("path", VString "a.json")])).
    - reflexivity.
    - reflexivity.
    - left. reflexivity.
    - intros s. discriminate. }
  split; [exact H|].
  exact (unusable_listing_gives_no_history unsorted _ clock (VString "Hanwella") None H).
Defined.

(** X17. One file whose payload the normalizer rejects empties the whole
    history: the readings already collected from the other files are
    lost. *)
Theorem rejected_file_empties_the_history
    (sort : list value -> list value) (fetch : Network) (now : string)
    (stationName : value) (hours : option float)
    (r : Response) (files : value) (recent : list value)
    (file url data : value) :
  fetch HISTORY_URL = Return r ->
  json r = Return files ->
  recentFiles sort files (hours_or_default hours) = Return recent ->
  In file recent ->
  getProp file "download_url" = Return url ->
  fetchFromSource_value fetch url = Return data ->
  truthy data = true ->
  parseRiverData now data = Throw ->
  fetchHistoricalData sort fetch now stationName hours = Return [].
Proof.
  intros E Hj Hr Hin Hu Hd Ht Hp. unfold fetchHistoricalData.
  rewrite E. cbn [bind]. rewrite Hj. cbn [bind]. rewrite Hr. cbn [bind].
  rewrite (for_of_Throw _ _ _ _ file [] Hin); [reflexivity|].
  intros acc. unfold visit. rewrite Hu. cbn [bind]. rewrite Hd. cbn [bind].
  rewrite Ht, Hp. reflexivity.
Qed.

Lemma rejected_file_empties_the_history_witness :
  fetchHistoricalData unsorted history_network clock (VString "Hanwella") None
  <> Return []
  /\ fetchHistoricalData unsorted broken_history_network clock (VString "Hanwella") None
     = Return [].
Proof.
  split; [vm_compute; discriminate|].
  apply (rejected_file_empties_the_history unsorted broken_history_network clock
           (VString "Hanwella") None
           (ok_response (VArray [ listed_file "2025-11-28.json" "file://a";
                                  listed_file "2025-11-27.json" "file://b";
                                  listed_file "README.md" "file://c" ]))
           (VArray [ listed_file "2025-11-28.json" "file://a";
                     listed_file "2025-11-27.json" "file://b";
                     listed_file "README.md" "file://c" ])
           [ listed_file "2025-11-28.json" "file://a";
             listed_file "2025-11-27.json" "file://b" ]
           (listed_file "2025-11-27.json" "file://b")
           (VString "file://b") (VArray [VNull])).
  - reflexivity.
  - reflexivity.
  - vm_compute. reflexivity.
  - right. left. reflexivity.
  - reflexivity.
  - reflexivity.
  - reflexivity.
  - reflexivity.
Defined.

End HistoryFacts.

(** ** Properties of the dashboard *)

Module DashboardFacts.
Import JS DataService Dashboard Spec Notions FetcherMore.
Local Open Scope Z_scope.

(** X18. A run of [loadRiverData] never reports a failure: from any state
    and on any network it leaves the error cleared, the loading and
    refreshing flags off, the readings that [fetchRiverData] returned as the
    river data, and their score as the flood risk. *)
Theorem loadRiverData_never_fails (fetch : Network) (now : string)
    (showRefreshing : bool) (st : AppState) :
  let st' := loadRiverData fetch now showRefreshing st in
  error st' = None
  /\ loading st' = false
  /\ refreshing st' = false
  /\ lastUpdate st' = Some now
  /\ fetchRiverData fetch now = Return (riverData st')
  /\ floodRisk st' = calculateFloodRisk (riverData st').
Proof.
  unfold loadRiverData.
  destruct (fetchRiverData_returns fetch now) as (out & ->).
  cbn. repeat split.
Qed.

End DashboardFacts.

